(** * gas-library-pixela: a shallow embedding of the pixe.la client

    The repository is three TypeScript files: [Client.ts] (the HTTP
    transport class [Client_]), [Pixela.ts] (the endpoint class [Pixela_])
    and [Response.ts] (response interfaces).  This development embeds the
    two classes and states the properties of the specification over them.

    The hosted runtime is not part of the repository.  Its primitives are
    handled as follows.
    - [Utilities.formatString], [Array.prototype.join] and [JSON.stringify]
      are written out below, following their documented behaviour.
    - JavaScript numbers, [Number.prototype.toString], [JSON.parse] and the
      network behind [UrlFetchApp.fetch] are variables of the sections:
      every theorem holds for any implementation of them. *)

From Stdlib Require Import String Ascii List Bool ZArith Lia DecimalString.
Import ListNotations.
Open Scope string_scope.

#[local] Set Warnings "-register-all".

(** ** JavaScript values *)

Section Values.

(** IEEE doubles are kept abstract: the client only prints them. *)
Variable number : Type.

(** An object is the list of its own enumerable properties in insertion
    order, which is the order [for ... in] and [JSON.stringify] follow for
    keys that are not array indices. *)
Inductive value : Type :=
| VUndefined
| VNull
| VBool (b : bool)
| VNum (n : number)
| VStr (s : string)
| VArr (items : list value)
| VObj (props : list (string * value)).

(** [obj[key]]: the value of the property, [undefined] when absent. *)
Fixpoint get_prop (key : string) (props : list (string * value)) : value :=
  match props with
  | [] => VUndefined
  | (k, v) :: rest => if String.eqb k key then v else get_prop key rest
  end.

(** [obj[key] = v]: an existing property keeps its place, a new one is
    added last. *)
Fixpoint set_prop (key : string) (v : value) (props : list (string * value))
  : list (string * value) :=
  match props with
  | [] => [(key, v)]
  | (k, w) :: rest =>
      if String.eqb k key then (k, v) :: rest
      else (k, w) :: set_prop key v rest
  end.

(** [key in obj], for own properties. *)
Definition has_prop (key : string) (props : list (string * value)) : bool :=
  existsb (fun kv => String.eqb (fst kv) key) props.

(** Number of properties named [key]. *)
Definition count_prop (key : string) (props : list (string * value)) : nat :=
  length (filter (fun kv => String.eqb (fst kv) key) props).

(** [x !== undefined] *)
Definition is_undefined (v : value) : bool :=
  match v with VUndefined => true | _ => false end.

(** *** JSON.stringify *)

Variable Number_toString : number -> string.
Variable Number_isFinite : number -> bool.

Definition hex_digit (n : nat) : ascii :=
  match n with
  | 0 => "0" | 1 => "1" | 2 => "2" | 3 => "3" | 4 => "4" | 5 => "5"
  | 6 => "6" | 7 => "7" | 8 => "8" | 9 => "9" | 10 => "a" | 11 => "b"
  | 12 => "c" | 13 => "d" | 14 => "e" | _ => "f"
  end%char.

(** One character of QuoteJSONString. *)
Definition quote_char (c : ascii) : string :=
  let n := nat_of_ascii c in
  if Nat.eqb n 34 then "\" ++ String c EmptyString
  else if Nat.eqb n 92 then "\\"
  else if Nat.eqb n 8 then "\b"
  else if Nat.eqb n 12 then "\f"
  else if Nat.eqb n 10 then "\n"
  else if Nat.eqb n 13 then "\r"
  else if Nat.eqb n 9 then "\t"
  else if Nat.ltb n 32 then
    "\u00" ++ String (hex_digit (n / 16)) (String (hex_digit (n mod 16)) EmptyString)
  else String c EmptyString.

Fixpoint quote_body (s : string) : string :=
  match s with
  | EmptyString => EmptyString
  | String c rest => quote_char c ++ quote_body rest
  end.

Definition dquote : string := String (ascii_of_nat 34) EmptyString.

Definition QuoteJSONString (s : string) : string :=
  dquote ++ quote_body s ++ dquote.

(** [JSON.stringify(v)]; [None] is the result [undefined].  Properties whose
    value serializes to [undefined] are left out of an object, and such
    elements of an array are written [null]. *)
Fixpoint JSON_stringify (v : value) : option string :=
  match v with
  | VUndefined => None
  | VNull => Some "null"
  | VBool b => Some (if b then "true" else "false")
  | VNum n => Some (if Number_isFinite n then Number_toString n else "null")
  | VStr s => Some (QuoteJSONString s)
  | VArr items =>
      Some ("[" ++ String.concat ","
                     (map (fun x => match JSON_stringify x with
                                    | Some s => s
                                    | None => "null"
                                    end) items) ++ "]")
  | VObj props =>
      Some ("{" ++ String.concat ","
                     (flat_map (fun kv => match JSON_stringify (snd kv) with
                                          | Some s => [QuoteJSONString (fst kv) ++ ":" ++ s]
                                          | None => []
                                          end) props) ++ "}")
  end.

End Values.

Arguments VUndefined {number}.
Arguments VNull {number}.
Arguments VBool {number} b.
Arguments VNum {number} n.
Arguments VStr {number} s.
Arguments VArr {number} items.
Arguments VObj {number} props.
Arguments get_prop {number} key props.
Arguments set_prop {number} key v props.
Arguments has_prop {number} key props.
Arguments count_prop {number} key props.
Arguments is_undefined {number} v.
Arguments JSON_stringify {number} Number_toString Number_isFinite v.

(** ** Runtime helpers used by the endpoint class *)

(** [Utilities.formatString(template, args...)] restricted to the only
    directive the client uses, [%s]: each occurrence is replaced by the next
    argument, which is inserted as it is and not scanned again.  Every call
    in [Pixela.ts] passes as many arguments as its template has directives;
    a directive left without an argument is kept verbatim here. *)
Fixpoint formatString (template : string) (args : list string) : string :=
  match template with
  | EmptyString => EmptyString
  | String "%" (String "s" rest) =>
      match args with
      | a :: args' => a ++ formatString rest args'
      | [] => String "%" (String "s" (formatString rest []))
      end
  | String c rest => String c (formatString rest args)
  end.

(** [Array.prototype.join] on an array of strings. *)
Definition join (sep : string) (items : list string) : string :=
  String.concat sep items.

(** ** The wire: requests, responses, failures *)

(** The options object handed to [UrlFetchApp.fetch].  [payload] is [None]
    when the property is missing or holds [undefined]. *)
Record FetchOptions : Type := {
  method : string;
  payload : option string;
  headers : list (string * string);
  muteHttpExceptions : bool
}.

Record Request : Type := {
  req_url : string;
  req_options : FetchOptions
}.

(** [HTTPResponse], with the two getters its users read. *)
Record HTTPResponse : Type := {
  getResponseCode : Z;
  getContentText : string
}.

(** What a call can throw: a failure of the fetch primitive, of
    [JSON.parse], or a property read on [null] / [undefined]. *)
Inductive Exception : Type :=
| FetchException (message : string)
| SyntaxError (message : string)
| TypeError (message : string).

(** The value of a header, [None] when the header is not set. *)
Fixpoint header (name : string) (hs : list (string * string)) : option string :=
  match hs with
  | [] => None
  | (k, v) :: rest => if String.eqb k name then Some v else header name rest
  end.

(** ** Scripts: calls that may send requests and may throw

    A script threads the list of the requests sent so far, oldest first,
    and ends with a value or with an exception. *)
Definition Script (A : Type) : Type :=
  list Request -> (Exception + A) * list Request.

Definition ret {A : Type} (a : A) : Script A :=
  fun sent => (inr a, sent).

Definition throw {A : Type} (e : Exception) : Script A :=
  fun sent => (inl e, sent).

Definition bind {A B : Type} (c : Script A) (k : A -> Script B) : Script B :=
  fun sent =>
    match c sent with
    | (inr a, sent') => k a sent'
    | (inl e, sent') => (inl e, sent')
    end.

Definition lift {A : Type} (r : Exception + A) : Script A :=
  fun sent => (r, sent).

Declare Scope script_scope.
Delimit Scope script_scope with script.
Notation "x <- c ;; k" := (bind c (fun x => k))
  (at level 61, c at next level, right associativity) : script_scope.
Open Scope script_scope.

(** The outcome and the requests of a script started on [sent]. *)
Definition outcome {A : Type} (c : Script A) (sent : list Request) : Exception + A :=
  fst (c sent).

Definition requests {A : Type} (c : Script A) (sent : list Request) : list Request :=
  snd (c sent).

(** A response code that "indicates failure" for [UrlFetchApp.fetch]. *)
Definition indicates_failure (code : Z) : bool :=
  negb ((200 <=? code)%Z && (code <? 300)%Z).

(** ** A runtime to run the examples on

    Integers stand for the numbers, the decoder knows the two bodies the
    service answers most calls with, and the network answers every request
    alike. *)

Definition sample_toString (n : Z) : string :=
  DecimalString.NilZero.string_of_int (Z.to_int n).

Definition sample_isFinite (n : Z) : bool := true.

Definition sample_stringify (v : value Z) : option string :=
  JSON_stringify sample_toString sample_isFinite v.

Definition body_of (v : value Z) : string :=
  match sample_stringify v with
  | Some s => s
  | None => EmptyString
  end.

Definition sample_success : value Z :=
  VObj [("message", VStr "Success."); ("isSuccess", VBool true)].

Definition sample_failure : value Z :=
  VObj [("message", VStr "User does not exist or the token is wrong.");
        ("isSuccess", VBool false)].

Definition sample_parse (text : string) : Exception + value Z :=
  if String.eqb text (body_of sample_success) then inr sample_success
  else if String.eqb text (body_of sample_failure) then inr sample_failure
  else inl (SyntaxError text).

(** Two answers of the service: a refusal with its explanation, and a page
    that is not JSON. *)
Definition not_found : HTTPResponse :=
  {| getResponseCode := 404; getContentText := body_of sample_failure |}.

Definition bad_gateway : HTTPResponse :=
  {| getResponseCode := 502; getContentText := "<html>Bad Gateway</html>" |}.

(** An answer that is an SVG document. *)
Definition svg_page : HTTPResponse :=
  {| getResponseCode := 200; getContentText := "<svg></svg>" |}.

(** A network on which no exchange succeeds. *)
Definition unreachable
  : list Request -> Request -> Exception + HTTPResponse :=
  fun _ _ => inl (FetchException "DNS error").

Definition replying (response : HTTPResponse)
  : list Request -> Request -> Exception + HTTPResponse :=
  fun _ _ => inr response.

Section Model.

(** The network: given the requests sent before and the request at hand, a
    failure of the exchange itself (DNS, connection) or the response. *)
Variable network : list Request -> Request -> Exception + HTTPResponse.

(** [UrlFetchApp.fetch(url, options)]: the request goes out; a failed
    exchange throws; a response whose code indicates failure throws unless
    [muteHttpExceptions] is set. *)
Definition UrlFetchApp_fetch (url : string) (options : FetchOptions)
  : Script HTTPResponse :=
  fun sent =>
    let rq := {| req_url := url; req_options := options |} in
    (match network sent rq with
     | inl e => inl e
     | inr response =>
         if negb (muteHttpExceptions options)
            && indicates_failure (getResponseCode response)
         then inl (FetchException (getContentText response))
         else inr response
     end, (sent ++ [rq])%list).

(** ** Client.ts: class [Client_] *)

Record Client_ : Type := { Client_token : string }.

Definition new_Client_ (token : string) : Client_ :=
  {| Client_token := token |}.

Context {number : Type}.
Variable Number_toString : number -> string.
Variable Number_isFinite : number -> bool.

Let stringify := JSON_stringify Number_toString Number_isFinite.

Definition Client_get (this : Client_) (url : string) : Script string :=
  let headers := [("X-USER-TOKEN", Client_token this)] in
  let options := {| method := "get";
                    payload := None;
                    headers := headers;
                    muteHttpExceptions := true |} in
  response <- UrlFetchApp_fetch url options ;;
  ret (getContentText response).

Definition Client_post (this : Client_) (url : string) (payload : value number)
  : Script string :=
  let headers := [("X-USER-TOKEN", Client_token this);
                  ("Content-Type", "application/json")] in
  let options := {| method := "post";
                    payload := stringify payload;
                    headers := headers;
                    muteHttpExceptions := true |} in
  response <- UrlFetchApp_fetch url options ;;
  ret (getContentText response).

Definition Client_put (this : Client_) (url : string) (payload : value number)
  : Script string :=
  let headers := [("X-USER-TOKEN", Client_token this);
                  ("Content-Type", "application/json")] in
  let options := {| method := "put";
                    payload := stringify payload;
                    headers := headers;
                    muteHttpExceptions := true |} in
  response <- UrlFetchApp_fetch url options ;;
  ret (getContentText response).

Definition Client_delete (this : Client_) (url : string) : Script string :=
  let headers := [("X-USER-TOKEN", Client_token this)] in
  let options := {| method := "delete";
                    payload := None;
                    headers := headers;
                    muteHttpExceptions := true |} in
  response <- UrlFetchApp_fetch url options ;;
  ret (getContentText response).

(** ** Pixela.ts: class [Pixela_] *)

(** [JSON.parse]: a syntax error or the decoded value. *)
Variable JSON_parse : string -> Exception + value number.

(** [v[key]]: reading a property of [null] or [undefined] throws; an
    object yields the property; the other values have none of the names the
    client reads. *)
Definition get_member (v : value number) (key : string)
  : Exception + value number :=
  match v with
  | VUndefined => inl (TypeError key)
  | VNull => inl (TypeError key)
  | VObj props => inr (get_prop key props)
  | _ => inr VUndefined
  end.

Record Pixela_ : Type := {
  baseURL : string;
  apiVersion : string;
  username : string;
  token : string;
  client : Client_
}.

Definition new_Pixela_ (username token : string) : Pixela_ :=
  {| baseURL := "https://pixe.la";
     apiVersion := "v1";
     username := username;
     token := token;
     client := new_Client_ token |}.

Definition create (username token : string) : Pixela_ :=
  new_Pixela_ username token.

Definition setToken (this : Pixela_) (token : string) : Pixela_ :=
  {| baseURL := baseURL this;
     apiVersion := apiVersion this;
     username := username this;
     token := token;
     client := new_Client_ token |}.

(** *** URL builders *)

Definition generateUserURL (this : Pixela_) : string :=
  formatString "%s/%s/users" [baseURL this; apiVersion this].

Definition generateUserIDURL (this : Pixela_) : string :=
  formatString "%s/%s/users/%s" [baseURL this; apiVersion this; username this].

Definition generateGraphsURL (this : Pixela_) : string :=
  formatString "%s/%s/users/%s/graphs"
    [baseURL this; apiVersion this; username this].

Definition generateGraphIDURL (this : Pixela_) (graphID : string) : string :=
  formatString "%s/%s/users/%s/graphs/%s"
    [baseURL this; apiVersion this; username this; graphID].

Definition generateDetailURL (this : Pixela_) (graphID detailType : string)
  : string :=
  formatString "%s/%s/users/%s/graphs/%s/%s"
    [baseURL this; apiVersion this; username this; graphID; detailType].

Definition generateWebhookURL (this : Pixela_) : string :=
  formatString "%s/%s/users/%s/webhooks"
    [baseURL this; apiVersion this; username this].

Definition generateWebhookDetailURL (this : Pixela_) (webhookHash : string)
  : string :=
  formatString "%s/%s/users/%s/webhooks/%s"
    [baseURL this; apiVersion this; username this; webhookHash].

(** [buildQuery]: [parameters] lists the properties of the parameter object
    in the order [for ... in] visits them; a value is a string or
    [undefined] ([None]), as the two callers pass them. *)
Definition buildQuery (url : string) (parameters : list (string * option string))
  : string :=
  let params :=
    fold_left
      (fun (params : list string) (kv : string * option string) =>
         match snd kv with
         | Some v => List.app params [fst kv ++ "=" ++ v]
         | None => params
         end)
      parameters [] in
  if Nat.eqb (length params) 0 then url
  else url ++ "?" ++ join "&" params.

(** *** User methods *)

Definition createUser (this : Pixela_) (agreeTermsOfService notMinor : string)
  : Script (value number) :=
  let requestURL := generateUserURL this in
  let payload := VObj [("username", VStr (username this));
                       ("token", VStr (token this));
                       ("agreeTermsOfService", VStr agreeTermsOfService);
                       ("notMinor", VStr notMinor)] in
  responseBodyText <- Client_post (client this) requestURL payload ;;
  lift (JSON_parse responseBodyText).

Definition updateUser (this : Pixela_) (newToken : string)
  : Script (value number) :=
  let requestURL := generateUserIDURL this in
  let payload := VObj [("newToken", VStr newToken)] in
  responseBodyText <- Client_put (client this) requestURL payload ;;
  lift (JSON_parse responseBodyText).

Definition deleteUser (this : Pixela_) : Script (value number) :=
  let requestURL := generateUserIDURL this in
  responseBodyText <- Client_delete (client this) requestURL ;;
  lift (JSON_parse responseBodyText).

(** *** Graph methods *)

(** The payload object [createGraph] has built when it calls the
    transport. *)
Definition createGraph_payload (graphID graphName unit type color : string)
  (timezone selfSufficient : option string) : list (string * value number) :=
  let payload := [("id", VStr graphID);
                  ("name", VStr graphName);
                  ("unit", VStr unit);
                  ("type", VStr type);
                  ("color", VStr color)] in
  let payload := match timezone with
                 | Some tz => set_prop "timezone" (VStr tz) payload
                 | None => payload
                 end in
  let payload := match selfSufficient with
                 | Some ss => set_prop "selfSufficient" (VStr ss) payload
                 | None => payload
                 end in
  payload.

Definition createGraph (this : Pixela_)
  (graphID graphName unit type color : string)
  (timezone selfSufficient : option string) : Script (value number) :=
  let requestURL := generateGraphsURL this in
  let payload :=
    createGraph_payload graphID graphName unit type color
      timezone selfSufficient in
  responseBodyText <- Client_post (client this) requestURL (VObj payload) ;;
  lift (JSON_parse responseBodyText).

Definition getGraph (this : Pixela_) : Script (value number) :=
  let requestURL := generateGraphsURL this in
  responseBodyText <- Client_get (client this) requestURL ;;
  lift (JSON_parse responseBodyText).

Definition getSvg (this : Pixela_) (graphID : string)
  (dateStr mode : option string) : Script string :=
  let requestURL := generateGraphIDURL this graphID in
  let requestURL := buildQuery requestURL [("date", dateStr); ("mode", mode)] in
  responseBodyText <- Client_get (client this) requestURL ;;
  ret responseBodyText.

(** The names [updateGraph] copies. *)
Definition elements : list string :=
  ["graphName"; "unit"; "type"; "color"; "timezone"; "selfSufficient"].

(** The [forEach] of [updateGraph], which fills [updatePayload]. *)
Fixpoint updateGraph_forEach (payload : value number) (elems : list string)
  (updatePayload : list (string * value number))
  : Exception + list (string * value number) :=
  match elems with
  | [] => inr updatePayload
  | elem :: rest =>
      match get_member payload elem with
      | inl e => inl e
      | inr v =>
          updateGraph_forEach payload rest
            (if negb (is_undefined v) then set_prop elem v updatePayload
             else updatePayload)
      end
  end.

(** [updatePayload] is filled and then [payload] is what the call hands to
    the transport. *)
Definition updateGraph (this : Pixela_) (graphID : string)
  (payload : value number) : Script (value number) :=
  let requestURL := generateGraphIDURL this graphID in
  updatePayload <- lift (updateGraph_forEach payload elements []) ;;
  responseBodyText <- Client_put (client this) requestURL payload ;;
  lift (JSON_parse responseBodyText).

Definition deleteGraph (this : Pixela_) (graphID : string)
  : Script (value number) :=
  let requestURL := generateGraphIDURL this graphID in
  responseBodyText <- Client_delete (client this) requestURL ;;
  lift (JSON_parse responseBodyText).

Definition getGraphPixelsDate (this : Pixela_) (graphID : string)
  (fromDateStr toDateStr : option string) : Script (value number) :=
  let requestURL := generateDetailURL this graphID "pixels" in
  let requestURL :=
    buildQuery requestURL [("from", fromDateStr); ("to", toDateStr)] in
  responseBodyText <- Client_get (client this) requestURL ;;
  lift (JSON_parse responseBodyText).

(** *** Pixel methods *)

(** [JSON.stringify(optionalData)] as a property value. *)
Definition stringified (v : value number) : value number :=
  match stringify v with
  | Some s => VStr s
  | None => VUndefined
  end.

(** The payload object [createPixel] has built when it calls the
    transport. *)
Definition createPixel_payload (dateStr : string) (quantity : number)
  (optionalData : value number) : list (string * value number) :=
  let payload := [("date", VStr dateStr);
                  ("quantity", VStr (Number_toString quantity))] in
  let payload := if negb (is_undefined optionalData)
                 then set_prop "optionalData" (stringified optionalData) payload
                 else payload in
  payload.

Definition createPixel (this : Pixela_) (graphID dateStr : string)
  (quantity : number) (optionalData : value number) : Script (value number) :=
  let requestURL := generateGraphIDURL this graphID in
  let payload := createPixel_payload dateStr quantity optionalData in
  responseBodyText <- Client_post (client this) requestURL (VObj payload) ;;
  lift (JSON_parse responseBodyText).

Definition getPixel (this : Pixela_) (graphID dateStr : string)
  : Script (value number) :=
  let requestURL := generateDetailURL this graphID dateStr in
  responseBodyText <- Client_get (client this) requestURL ;;
  lift (JSON_parse responseBodyText).

(** The payload object [updatePixel] has built when it calls the
    transport. *)
Definition updatePixel_payload (quantity : number)
  (optionalData : value number) : list (string * value number) :=
  let payload := [("quantity", VStr (Number_toString quantity))] in
  let payload := if negb (is_undefined optionalData)
                 then set_prop "optionalData" (stringified optionalData) payload
                 else payload in
  payload.

Definition updatePixel (this : Pixela_) (graphID dateStr : string)
  (quantity : number) (optionalData : value number) : Script (value number) :=
  let requestURL := generateDetailURL this graphID dateStr in
  let payload := updatePixel_payload quantity optionalData in
  responseBodyText <- Client_put (client this) requestURL (VObj payload) ;;
  lift (JSON_parse responseBodyText).

Definition incPixel (this : Pixela_) (graphID : string)
  : Script (value number) :=
  let requestURL := generateDetailURL this graphID "increment" in
  responseBodyText <- Client_put (client this) requestURL VUndefined ;;
  lift (JSON_parse responseBodyText).

Definition decPixel (this : Pixela_) (graphID : string)
  : Script (value number) :=
  let requestURL := generateDetailURL this graphID "decrement" in
  responseBodyText <- Client_put (client this) requestURL VUndefined ;;
  lift (JSON_parse responseBodyText).

Definition deletePixel (this : Pixela_) (graphID dateStr : string)
  : Script (value number) :=
  let requestURL := generateDetailURL this graphID dateStr in
  responseBodyText <- Client_delete (client this) requestURL ;;
  lift (JSON_parse responseBodyText).

(** *** Webhook methods *)

Definition createWebhook (this : Pixela_) (graphID webhookType : string)
  : Script (value number) :=
  let requestURL := generateWebhookURL this in
  let payload := VObj [("graphID", VStr graphID); ("type", VStr webhookType)] in
  responseBodyText <- Client_post (client this) requestURL payload ;;
  lift (JSON_parse responseBodyText).

Definition getWebhook (this : Pixela_) : Script (value number) :=
  let requestURL := generateWebhookURL this in
  responseBodyText <- Client_get (client this) requestURL ;;
  lift (JSON_parse responseBodyText).

Definition invokeWebhook (this : Pixela_) (webhookHash : string)
  : Script (value number) :=
  let requestURL := generateWebhookDetailURL this webhookHash in
  responseBodyText <- Client_post (client this) requestURL VUndefined ;;
  lift (JSON_parse responseBodyText).

Definition deleteWebhook (this : Pixela_) (webhookHash : string)
  : Script (value number) :=
  let requestURL := generateWebhookDetailURL this webhookHash in
  responseBodyText <- Client_delete (client this) requestURL ;;
  lift (JSON_parse responseBodyText).

(** ** Calls on a client, one after the other *)

(** The public methods with their arguments. *)
Inductive Op : Type :=
| CallSetToken (token : string)
| CallCreateUser (agreeTermsOfService notMinor : string)
| CallUpdateUser (newToken : string)
| CallDeleteUser
| CallCreateGraph (graphID graphName unit type color : string)
    (timezone selfSufficient : option string)
| CallGetGraph
| CallGetSvg (graphID : string) (dateStr mode : option string)
| CallUpdateGraph (graphID : string) (payload : value number)
| CallDeleteGraph (graphID : string)
| CallGetGraphPixelsDate (graphID : string) (fromDateStr toDateStr : option string)
| CallCreatePixel (graphID dateStr : string) (quantity : number)
    (optionalData : value number)
| CallGetPixel (graphID dateStr : string)
| CallUpdatePixel (graphID dateStr : string) (quantity : number)
    (optionalData : value number)
| CallIncPixel (graphID : string)
| CallDecPixel (graphID : string)
| CallDeletePixel (graphID dateStr : string)
| CallCreateWebhook (graphID webhookType : string)
| CallGetWebhook
| CallInvokeWebhook (webhookHash : string)
| CallDeleteWebhook (webhookHash : string).

(** What a call returns or throws, and the requests it sends.  [setToken]
    returns nothing and [getSvg] returns the text it received. *)
Definition invoke (this : Pixela_) (op : Op) : Script (value number) :=
  match op with
  | CallSetToken _ => ret VUndefined
  | CallCreateUser a n => createUser this a n
  | CallUpdateUser t => updateUser this t
  | CallDeleteUser => deleteUser this
  | CallCreateGraph g n u ty c tz ss => createGraph this g n u ty c tz ss
  | CallGetGraph => getGraph this
  | CallGetSvg g d m => text <- getSvg this g d m ;; ret (VStr text)
  | CallUpdateGraph g p => updateGraph this g p
  | CallDeleteGraph g => deleteGraph this g
  | CallGetGraphPixelsDate g f t => getGraphPixelsDate this g f t
  | CallCreatePixel g d q o => createPixel this g d q o
  | CallGetPixel g d => getPixel this g d
  | CallUpdatePixel g d q o => updatePixel this g d q o
  | CallIncPixel g => incPixel this g
  | CallDecPixel g => decPixel this g
  | CallDeletePixel g d => deletePixel this g d
  | CallCreateWebhook g w => createWebhook this g w
  | CallGetWebhook => getWebhook this
  | CallInvokeWebhook h => invokeWebhook this h
  | CallDeleteWebhook h => deleteWebhook this h
  end.

(** The object after a call: only [setToken] assigns to a field. *)
Definition after (this : Pixela_) (op : Op) : Pixela_ :=
  match op with
  | CallSetToken t => setToken this t
  | _ => this
  end.

(** A caller that makes the calls of [ops] in order, going on after a call
    that threw. *)
Definition step (st : Pixela_ * list Request) (op : Op)
  : Pixela_ * list Request :=
  (after (fst st) op, requests (invoke (fst st) op) (snd st)).

Definition run (ops : list Op) (st : Pixela_ * list Request)
  : Pixela_ * list Request :=
  fold_left step ops st.

(** The calls that decode the response body with [JSON.parse]. *)
Definition decodes (op : Op) : bool :=
  match op with
  | CallSetToken _ => false
  | CallGetSvg _ _ _ => false
  | _ => true
  end.

Definition is_setToken (op : Op) : bool :=
  match op with
  | CallSetToken _ => true
  | _ => false
  end.

(** The transport's token is the stored token. *)
Definition token_in_sync (this : Pixela_) : Prop :=
  Client_token (client this) = token this.

(** ** What the properties are stated with *)

(** The header that authenticates a request. *)
Definition auth_header (rq : Request) : option string :=
  header "X-USER-TOKEN" (headers (req_options rq)).

Definition content_type (rq : Request) : option string :=
  header "Content-Type" (headers (req_options rq)).

Definition body (rq : Request) : option string :=
  payload (req_options rq).

(** The script sends exactly one request, the request [rq]. *)
Definition sends {A : Type} (c : Script A) (sent : list Request)
  (rq : Request) : Prop :=
  requests c sent = (sent ++ [rq])%list.

(** The script sends exactly one request, with this verb, to this URL. *)
Definition issues {A : Type} (c : Script A) (sent : list Request)
  (verb url : string) : Prop :=
  exists rq, sends c sent rq
             /\ method (req_options rq) = verb
             /\ req_url rq = url.

(** The two shapes of request the transport builds: with the token alone,
    and with the token, the JSON content type and a body. *)
Definition plain_request (verb token url : string) : Request :=
  {| req_url := url;
     req_options := {| method := verb;
                       payload := None;
                       headers := [("X-USER-TOKEN", token)];
                       muteHttpExceptions := true |} |}.

Definition json_request (verb token url : string) (text : option string)
  : Request :=
  {| req_url := url;
     req_options := {| method := verb;
                       payload := text;
                       headers := [("X-USER-TOKEN", token);
                                   ("Content-Type", "application/json")];
                       muteHttpExceptions := true |} |}.

(** What a muted exchange hands back: the failure of the exchange, or the
    text of the response whatever its code. *)
Definition reply (sent : list Request) (rq : Request) : Exception + string :=
  match network sent rq with
  | inl e => inl e
  | inr response => inr (getContentText response)
  end.

(** What the caller gets from a decoding method once the request [rq] went
    out. *)
Definition decoded (sent : list Request) (rq : Request)
  : Exception + value number :=
  match reply sent rq with
  | inl e => inl e
  | inr text => JSON_parse text
  end.

(** The request each call puts on the wire, read off the methods;
    [invoke_run] below shows that the methods send exactly this. *)
Definition wire (this : Pixela_) (op : Op) : option Request :=
  let tok := Client_token (client this) in
  match op with
  | CallSetToken _ => None
  | CallCreateUser a n =>
      Some (json_request "post" tok (generateUserURL this)
              (stringify (VObj [("username", VStr (username this));
                                ("token", VStr (token this));
                                ("agreeTermsOfService", VStr a);
                                ("notMinor", VStr n)])))
  | CallUpdateUser t =>
      Some (json_request "put" tok (generateUserIDURL this)
              (stringify (VObj [("newToken", VStr t)])))
  | CallDeleteUser =>
      Some (plain_request "delete" tok (generateUserIDURL this))
  | CallCreateGraph g n u ty c tz ss =>
      Some (json_request "post" tok (generateGraphsURL this)
              (stringify (VObj (createGraph_payload g n u ty c tz ss))))
  | CallGetGraph =>
      Some (plain_request "get" tok (generateGraphsURL this))
  | CallGetSvg g d m =>
      Some (plain_request "get" tok
              (buildQuery (generateGraphIDURL this g)
                 [("date", d); ("mode", m)]))
  | CallUpdateGraph g p =>
      match updateGraph_forEach p elements [] with
      | inl _ => None
      | inr _ =>
          Some (json_request "put" tok (generateGraphIDURL this g) (stringify p))
      end
  | CallDeleteGraph g =>
      Some (plain_request "delete" tok (generateGraphIDURL this g))
  | CallGetGraphPixelsDate g f t =>
      Some (plain_request "get" tok
              (buildQuery (generateDetailURL this g "pixels")
                 [("from", f); ("to", t)]))
  | CallCreatePixel g d q o =>
      Some (json_request "post" tok (generateGraphIDURL this g)
              (stringify (VObj (createPixel_payload d q o))))
  | CallGetPixel g d =>
      Some (plain_request "get" tok (generateDetailURL this g d))
  | CallUpdatePixel g d q o =>
      Some (json_request "put" tok (generateDetailURL this g d)
              (stringify (VObj (updatePixel_payload q o))))
  | CallIncPixel g =>
      Some (json_request "put" tok (generateDetailURL this g "increment")
              (stringify VUndefined))
  | CallDecPixel g =>
      Some (json_request "put" tok (generateDetailURL this g "decrement")
              (stringify VUndefined))
  | CallDeletePixel g d =>
      Some (plain_request "delete" tok (generateDetailURL this g d))
  | CallCreateWebhook g w =>
      Some (json_request "post" tok (generateWebhookURL this)
              (stringify (VObj [("graphID", VStr g); ("type", VStr w)])))
  | CallGetWebhook =>
      Some (plain_request "get" tok (generateWebhookURL this))
  | CallInvokeWebhook h =>
      Some (json_request "post" tok (generateWebhookDetailURL this h)
              (stringify VUndefined))
  | CallDeleteWebhook h =>
      Some (plain_request "delete" tok (generateWebhookDetailURL this h))
  end.

(** The token in effect after the calls [ops], starting from [t]. *)
Definition last_token (ops : list Op) (t : string) : string :=
  fold_left (fun t op => match op with
                         | CallSetToken t' => t'
                         | _ => t
                         end) ops t.

(** Following the specification's words: the [key=value] pairs of exactly
    the parameters whose value is defined, in the order of declaration. *)
Fixpoint query_pairs (parameters : list (string * option string)) : list string :=
  match parameters with
  | [] => []
  | (key, Some v) :: rest => (key ++ "=" ++ v) :: query_pairs rest
  | (_, None) :: rest => query_pairs rest
  end.

(** * Properties *)

(** ** Strings *)

Lemma string_app_nil_r (s : string) : s ++ EmptyString = s.
Proof.
  induction s as [|c s IH]; simpl; [reflexivity | now rewrite IH].
Qed.

Lemma string_app_assoc (a b c : string) : (a ++ b) ++ c = a ++ (b ++ c).
Proof.
  induction a as [|x a IH]; simpl; [reflexivity | now rewrite IH].
Qed.

(** ** The URL builders in closed form *)

Lemma generateUserURL_eq (this : Pixela_) :
  generateUserURL this = baseURL this ++ "/" ++ apiVersion this ++ "/users".
Proof. reflexivity. Qed.

Lemma generateUserIDURL_eq (this : Pixela_) :
  generateUserIDURL this
  = baseURL this ++ "/" ++ apiVersion this ++ "/users/" ++ username this.
Proof.
  unfold generateUserIDURL; simpl. now rewrite string_app_nil_r.
Qed.

Lemma generateGraphsURL_eq (this : Pixela_) :
  generateGraphsURL this
  = baseURL this ++ "/" ++ apiVersion this ++ "/users/" ++ username this
    ++ "/graphs".
Proof. reflexivity. Qed.

Lemma generateGraphIDURL_eq (this : Pixela_) (graphID : string) :
  generateGraphIDURL this graphID
  = baseURL this ++ "/" ++ apiVersion this ++ "/users/" ++ username this
    ++ "/graphs/" ++ graphID.
Proof.
  unfold generateGraphIDURL; simpl. now rewrite string_app_nil_r.
Qed.

Lemma generateDetailURL_eq (this : Pixela_) (graphID detailType : string) :
  generateDetailURL this graphID detailType
  = baseURL this ++ "/" ++ apiVersion this ++ "/users/" ++ username this
    ++ "/graphs/" ++ graphID ++ "/" ++ detailType.
Proof.
  unfold generateDetailURL; simpl. now rewrite string_app_nil_r.
Qed.

Lemma generateWebhookURL_eq (this : Pixela_) :
  generateWebhookURL this
  = baseURL this ++ "/" ++ apiVersion this ++ "/users/" ++ username this
    ++ "/webhooks".
Proof. reflexivity. Qed.

Lemma generateWebhookDetailURL_eq (this : Pixela_) (webhookHash : string) :
  generateWebhookDetailURL this webhookHash
  = baseURL this ++ "/" ++ apiVersion this ++ "/users/" ++ username this
    ++ "/webhooks/" ++ webhookHash.
Proof.
  unfold generateWebhookDetailURL; simpl. now rewrite string_app_nil_r.
Qed.

(** ** The transport, one verb at a time *)

Lemma Client_get_run (this : Client_) (url : string) (sent : list Request) :
  Client_get this url sent
  = (reply sent (plain_request "get" (Client_token this) url),
     (sent ++ [plain_request "get" (Client_token this) url])%list).
Proof.
  unfold Client_get, bind, UrlFetchApp_fetch, reply, ret, plain_request; simpl.
  destruct (network sent _); reflexivity.
Qed.

Lemma Client_post_run (this : Client_) (url : string) (p : value number)
  (sent : list Request) :
  Client_post this url p sent
  = (reply sent (json_request "post" (Client_token this) url (stringify p)),
     (sent ++ [json_request "post" (Client_token this) url (stringify p)])%list).
Proof.
  unfold Client_post, bind, UrlFetchApp_fetch, reply, ret, json_request; simpl.
  destruct (network sent _); reflexivity.
Qed.

Lemma Client_put_run (this : Client_) (url : string) (p : value number)
  (sent : list Request) :
  Client_put this url p sent
  = (reply sent (json_request "put" (Client_token this) url (stringify p)),
     (sent ++ [json_request "put" (Client_token this) url (stringify p)])%list).
Proof.
  unfold Client_put, bind, UrlFetchApp_fetch, reply, ret, json_request; simpl.
  destruct (network sent _); reflexivity.
Qed.

Lemma Client_delete_run (this : Client_) (url : string) (sent : list Request) :
  Client_delete this url sent
  = (reply sent (plain_request "delete" (Client_token this) url),
     (sent ++ [plain_request "delete" (Client_token this) url])%list).
Proof.
  unfold Client_delete, bind, UrlFetchApp_fetch, reply, ret, plain_request; simpl.
  destruct (network sent _); reflexivity.
Qed.

(** A method that decodes what the transport returned. *)
Lemma decode_run (c : Script string) (sent : list Request) (rq : Request) :
  c sent = (reply sent rq, (sent ++ [rq])%list) ->
  (text <- c ;; lift (JSON_parse text)) sent
  = (match reply sent rq with
     | inl e => inl e
     | inr text => JSON_parse text
     end, (sent ++ [rq])%list).
Proof.
  intros H. unfold bind, lift. rewrite H.
  destruct (reply sent rq); reflexivity.
Qed.

(** A method that returns the text as it is. *)
Lemma verbatim_run (c : Script string) (sent : list Request) (rq : Request) :
  c sent = (reply sent rq, (sent ++ [rq])%list) ->
  (text <- c ;; ret text) sent = (reply sent rq, (sent ++ [rq])%list).
Proof.
  intros H. unfold bind, ret. rewrite H.
  destruct (reply sent rq); reflexivity.
Qed.

Ltac transport_run :=
  first [ apply Client_get_run | apply Client_post_run
        | apply Client_put_run | apply Client_delete_run ].

(** ** The methods, one request each *)

Ltac method_run :=
  first [ apply decode_run; transport_run
        | apply verbatim_run; transport_run ].

Lemma updateGraph_run (this : Pixela_) (graphID : string) (p : value number)
  (sent : list Request) :
  updateGraph this graphID p sent
  = match updateGraph_forEach p elements [] with
    | inl e => (inl e, sent)
    | inr _ =>
        (decoded sent (json_request "put" (Client_token (client this))
                         (generateGraphIDURL this graphID) (stringify p)),
         (sent ++ [json_request "put" (Client_token (client this))
                     (generateGraphIDURL this graphID) (stringify p)])%list)
    end.
Proof.
  unfold updateGraph, decoded. unfold bind at 1. unfold lift at 1.
  destruct (updateGraph_forEach p elements []) as [e | upd]; [reflexivity |].
  now erewrite decode_run by transport_run.
Qed.

(** Every call sends the request [wire] lists for it and nothing else, and
    a decoding call returns what [JSON.parse] makes of the reply. *)
Lemma invoke_run (this : Pixela_) (op : Op) (sent : list Request) :
  match wire this op with
  | Some rq =>
      requests (invoke this op) sent = (sent ++ [rq])%list
      /\ (decodes op = true -> outcome (invoke this op) sent = decoded sent rq)
  | None => requests (invoke this op) sent = sent
  end.
Proof.
  destruct op; unfold requests, outcome; cbv [wire invoke];
    try rewrite updateGraph_run; unfold decoded;
    cbv beta zeta delta
      [createUser updateUser deleteUser createGraph getGraph deleteGraph
       getGraphPixelsDate createPixel getPixel updatePixel incPixel decPixel
       deletePixel createWebhook getWebhook invokeWebhook deleteWebhook];
    try reflexivity;
    try (erewrite decode_run by transport_run;
         split; [reflexivity | now intros _]).
  - (* getSvg *)
    unfold getSvg.
    unfold bind at 1.
    erewrite verbatim_run by transport_run.
    split; [| discriminate].
    now destruct (reply sent _).
  - (* updateGraph *)
    match goal with
    | |- context [updateGraph_forEach ?p elements []] =>
        destruct (updateGraph_forEach p elements []) as [e | upd]
    end; [reflexivity | split; [reflexivity | now intros _]].
Qed.

Lemma invoke_requests (this : Pixela_) (op : Op) (sent : list Request) :
  requests (invoke this op) sent
  = (sent ++ match wire this op with Some rq => [rq] | None => [] end)%list.
Proof.
  pose proof (invoke_run this op sent) as H.
  destruct (wire this op) as [rq |]; [apply H | now rewrite app_nil_r].
Qed.

Lemma invoke_outcome (this : Pixela_) (op : Op) (sent : list Request)
  (rq : Request) :
  decodes op = true ->
  requests (invoke this op) sent = (sent ++ [rq])%list ->
  outcome (invoke this op) sent = decoded sent rq.
Proof.
  intros Hd Hs. pose proof (invoke_run this op sent) as H.
  destruct (wire this op) as [rq' |].
  - destruct H as [H1 H2]. rewrite H1 in Hs.
    apply app_inv_head in Hs. injection Hs as ->. now apply H2.
  - rewrite H in Hs. apply (f_equal (@length Request)) in Hs.
    rewrite length_app in Hs. simpl in Hs. lia.
Qed.

(** Proves [issues (m this args) sent verb url] from the entry of [wire]. *)
Ltac by_wire this op :=
  match goal with
  | |- issues _ ?sent _ _ =>
      let H := fresh "H" in
      pose proof (invoke_run this op sent) as H;
      cbv [wire] in H; destruct H as [H _];
      eexists; split; [exact H | split; [reflexivity |]]
  end.

(** ** C1: [updateGraph] and the allow-list *)

(** C1, evaluated on the payload [{graphName: "x", bogus: "y"}]: the loop of
    [updateGraph] leaves a filtered copy holding [graphName] alone, and the
    request that goes out carries the serialization of the payload as it
    was passed, which is not the serialization of the filtered copy. *)
Theorem updateGraph_sends_payload_unfiltered (this : Pixela_)
  (graphID : string) (sent : list Request) :
  updateGraph_forEach
    (VObj [("graphName", VStr "x"); ("bogus", VStr "y")]) elements []
  = inr [("graphName", @VStr number "x")]
  /\ sends (updateGraph this graphID
              (VObj [("graphName", VStr "x"); ("bogus", VStr "y")]))
       sent
       (json_request "put" (Client_token (client this))
          (generateGraphIDURL this graphID)
          (JSON_stringify Number_toString Number_isFinite
             (VObj [("graphName", VStr "x"); ("bogus", VStr "y")])))
  /\ JSON_stringify Number_toString Number_isFinite
       (VObj [("graphName", VStr "x"); ("bogus", VStr "y")])
     <> JSON_stringify Number_toString Number_isFinite
          (VObj [("graphName", VStr "x")]).
Proof.
  split; [reflexivity | split].
  - unfold sends, requests. now rewrite updateGraph_run.
  - intros H. vm_compute in H. discriminate H.
Qed.

(** ** C2: the URLs of the pixel methods *)

(** C2 (amended): on a client made by [create], [getPixel], [updatePixel]
    and [deletePixel] address
    [https://pixe.la/v1/users/{username}/graphs/{graphID}/{date}],
    [incPixel] and [decPixel] address the same path ending in [increment]
    and [decrement], and [createPixel] posts to
    [https://pixe.la/v1/users/{username}/graphs/{graphID}], the date being
    the [date] property of its payload. *)
Theorem pixel_methods_urls (username token graphID dateStr : string)
  (quantity : number) (optionalData : value number) (sent : list Request) :
  issues (createPixel (create username token) graphID dateStr quantity
            optionalData) sent "post"
    ("https://pixe.la/v1/users/" ++ username ++ "/graphs/" ++ graphID)
  /\ sends (createPixel (create username token) graphID dateStr quantity
              optionalData) sent
       (json_request "post" token
          (generateGraphIDURL (create username token) graphID)
          (JSON_stringify Number_toString Number_isFinite
             (VObj (createPixel_payload dateStr quantity optionalData))))
  /\ get_prop "date" (createPixel_payload dateStr quantity optionalData)
     = VStr dateStr
  /\ issues (getPixel (create username token) graphID dateStr) sent "get"
       ("https://pixe.la/v1/users/" ++ username ++ "/graphs/" ++ graphID
        ++ "/" ++ dateStr)
  /\ issues (updatePixel (create username token) graphID dateStr quantity
               optionalData) sent "put"
       ("https://pixe.la/v1/users/" ++ username ++ "/graphs/" ++ graphID
        ++ "/" ++ dateStr)
  /\ issues (incPixel (create username token) graphID) sent "put"
       ("https://pixe.la/v1/users/" ++ username ++ "/graphs/" ++ graphID
        ++ "/increment")
  /\ issues (decPixel (create username token) graphID) sent "put"
       ("https://pixe.la/v1/users/" ++ username ++ "/graphs/" ++ graphID
        ++ "/decrement")
  /\ issues (deletePixel (create username token) graphID dateStr) sent "delete"
       ("https://pixe.la/v1/users/" ++ username ++ "/graphs/" ++ graphID
        ++ "/" ++ dateStr).
Proof.
  repeat split.
  - by_wire (create username token)
      (CallCreatePixel graphID dateStr quantity optionalData).
    cbv [json_request req_url]. now rewrite generateGraphIDURL_eq.
  - apply (invoke_run (create username token)
             (CallCreatePixel graphID dateStr quantity optionalData) sent).
  - unfold createPixel_payload.
    destruct (negb (is_undefined optionalData)); reflexivity.
  - by_wire (create username token) (CallGetPixel graphID dateStr).
    cbv [plain_request req_url]. now rewrite generateDetailURL_eq.
  - by_wire (create username token)
      (CallUpdatePixel graphID dateStr quantity optionalData).
    cbv [json_request req_url]. now rewrite generateDetailURL_eq.
  - by_wire (create username token) (CallIncPixel graphID).
    cbv [json_request req_url]. now rewrite generateDetailURL_eq.
  - by_wire (create username token) (CallDecPixel graphID).
    cbv [json_request req_url]. now rewrite generateDetailURL_eq.
  - by_wire (create username token) (CallDeletePixel graphID dateStr).
    cbv [plain_request req_url]. now rewrite generateDetailURL_eq.
Qed.

(** ** C3: headers and body per verb *)

(** C3 (amended): [post] and [put] send the token header, the header
    [Content-Type: application/json] and, as body, [JSON.stringify] of the
    payload, which is a text whenever the payload is an object; [get] and
    [delete] send the token header alone, with no content type and no
    body. *)
Theorem transport_headers_and_body (this : Client_) (url : string)
  (p : value number) (sent : list Request) :
  (exists rq, sends (Client_post this url p) sent rq
              /\ method (req_options rq) = "post" /\ req_url rq = url
              /\ auth_header rq = Some (Client_token this)
              /\ content_type rq = Some "application/json"
              /\ body rq = JSON_stringify Number_toString Number_isFinite p)
  /\ (exists rq, sends (Client_put this url p) sent rq
                 /\ method (req_options rq) = "put" /\ req_url rq = url
                 /\ auth_header rq = Some (Client_token this)
                 /\ content_type rq = Some "application/json"
                 /\ body rq = JSON_stringify Number_toString Number_isFinite p)
  /\ (exists rq, sends (Client_get this url) sent rq
                 /\ method (req_options rq) = "get" /\ req_url rq = url
                 /\ auth_header rq = Some (Client_token this)
                 /\ content_type rq = None
                 /\ body rq = None)
  /\ (exists rq, sends (Client_delete this url) sent rq
                 /\ method (req_options rq) = "delete" /\ req_url rq = url
                 /\ auth_header rq = Some (Client_token this)
                 /\ content_type rq = None
                 /\ body rq = None)
  /\ (forall props, exists text,
        JSON_stringify Number_toString Number_isFinite (VObj props) = Some text).
Proof.
  unfold sends, requests.
  split; [| split; [| split; [| split]]].
  - eexists. rewrite Client_post_run. repeat split.
  - eexists. rewrite Client_put_run. repeat split.
  - eexists. rewrite Client_get_run. repeat split.
  - eexists. rewrite Client_delete_run. repeat split.
  - intros props. eexists. reflexivity.
Qed.

(** ** C4: token rotation *)

Lemma wire_auth (this : Pixela_) (op : Op) (rq : Request) :
  wire this op = Some rq ->
  auth_header rq = Some (Client_token (client this)).
Proof.
  destruct op; cbv [wire]; intros H; try discriminate;
    try (injection H as <-; reflexivity).
  match type of H with
  | context [updateGraph_forEach ?p elements []] =>
      destruct (updateGraph_forEach p elements [])
  end; [discriminate | injection H as <-; reflexivity].
Qed.

Lemma create_in_sync (username token0 : string) :
  token_in_sync (create username token0).
Proof. reflexivity. Qed.

Lemma after_in_sync (this : Pixela_) (op : Op) :
  token_in_sync this -> token_in_sync (after this op).
Proof. intros H. destruct op; simpl; try exact H. reflexivity. Qed.

Lemma run_in_sync (ops : list Op) (st : Pixela_ * list Request) :
  token_in_sync (fst st) -> token_in_sync (fst (run ops st)).
Proof.
  revert st. induction ops as [| op ops IH]; intros st H; simpl; [exact H |].
  apply IH. simpl. now apply after_in_sync.
Qed.

Lemma run_app (ops1 ops2 : list Op) (st : Pixela_ * list Request) :
  run (ops1 ++ ops2) st = run ops2 (run ops1 st).
Proof. unfold run. apply fold_left_app. Qed.

(** Calls other than [setToken] keep the object and send the stored token. *)
Lemma run_carries_token (ops : list Op) (st : Pixela_ * list Request) :
  existsb is_setToken ops = false ->
  token_in_sync (fst st) ->
  fst (run ops st) = fst st
  /\ exists news,
       snd (run ops st) = (snd st ++ news)%list
       /\ Forall (fun rq => auth_header rq = Some (token (fst st))) news.
Proof.
  revert st. induction ops as [| op ops IH]; intros st Hno Hsync; simpl.
  - split; [reflexivity |]. exists []. now rewrite app_nil_r.
  - simpl in Hno. apply orb_false_iff in Hno as [Hop Hno].
    assert (Hafter : after (fst st) op = fst st) by (now destruct op).
    destruct (IH (step st op) Hno) as [Hfst [news [Hsnd Hall]]].
    { simpl. now rewrite Hafter. }
    simpl in Hfst, Hsnd, Hall. rewrite Hafter in Hfst, Hall.
    split; [exact Hfst |].
    rewrite invoke_requests in Hsnd.
    exists (match wire (fst st) op with Some rq => [rq] | None => [] end ++ news)%list.
    split; [now rewrite app_assoc |].
    apply Forall_app. split; [| exact Hall].
    destruct (wire (fst st) op) as [rq |] eqn:Hw; [| constructor].
    constructor; [| constructor].
    rewrite (wire_auth _ _ _ Hw). now rewrite Hsync.
Qed.

(** C4: whatever calls [earlier] came first, once [setToken(token')] has
    run, every request sent by the calls that follow (up to the next
    [setToken]) carries [token'] in [X-USER-TOKEN], hence not the token
    stored before if that one differs; and after any sequence of calls the
    token of the transport is the stored token. *)
Theorem setToken_rotates_token (username token0 token' : string)
  (earlier later : list Op) (sent : list Request) :
  existsb is_setToken later = false ->
  (forall ops, token_in_sync (fst (run ops (create username token0, sent))))
  /\ token (fst (run (earlier ++ [CallSetToken token'])
                   (create username token0, sent))) = token'
  /\ exists news,
       snd (run later (run (earlier ++ [CallSetToken token'])
                         (create username token0, sent)))
       = (snd (run earlier (create username token0, sent)) ++ news)%list
       /\ Forall
            (fun rq =>
               auth_header rq = Some token'
               /\ (token (fst (run earlier (create username token0, sent)))
                   <> token' ->
                   auth_header rq
                   <> Some (token (fst (run earlier
                                          (create username token0, sent))))))
            news.
Proof.
  intros Hno.
  split; [intros ops; apply run_in_sync, create_in_sync |].
  rewrite run_app.
  set (st := run earlier (create username token0, sent)).
  split; [reflexivity |].
  destruct (run_carries_token later (run [CallSetToken token'] st) Hno)
    as [_ [news [Hsnd Hall]]]; [reflexivity |].
  exists news. split.
  - rewrite Hsnd. reflexivity.
  - eapply Forall_impl; [| exact Hall].
    simpl. intros rq Hrq. split; [exact Hrq |].
    intros Hne Hold. rewrite Hrq in Hold. injection Hold as Hold. now apply Hne.
Qed.

(** ** C5: [invokeWebhook] *)

(** C5: [invokeWebhook] sends one POST, to the URL of the webhook, and the
    request has no body. *)
Theorem invokeWebhook_sends_no_body (this : Pixela_) (webhookHash : string)
  (sent : list Request) :
  exists rq, sends (invokeWebhook this webhookHash) sent rq
             /\ method (req_options rq) = "post"
             /\ req_url rq = generateWebhookDetailURL this webhookHash
             /\ body rq = None.
Proof.
  eexists. split.
  - apply (invoke_run this (CallInvokeWebhook webhookHash) sent).
  - repeat split.
Qed.

(** ** C10: what [setToken] leaves alone *)

Lemma wire_url_frame (this : Pixela_) (t : string) (op : Op) :
  option_map req_url (wire (setToken this t) op)
  = option_map req_url (wire this op).
Proof.
  destruct op; cbv [wire]; try reflexivity.
  match goal with
  | |- context [updateGraph_forEach ?p elements []] =>
      destruct (updateGraph_forEach p elements [])
  end; reflexivity.
Qed.

(** C10: [setToken] assigns the token and the transport and keeps
    [username], [baseURL] and [apiVersion]; every call addresses the same
    URL after the rotation as before it. *)
Theorem setToken_frame (this : Pixela_) (t : string) :
  username (setToken this t) = username this
  /\ baseURL (setToken this t) = baseURL this
  /\ apiVersion (setToken this t) = apiVersion this
  /\ token (setToken this t) = t
  /\ client (setToken this t) = new_Client_ t
  /\ generateUserURL (setToken this t) = generateUserURL this
  /\ generateUserIDURL (setToken this t) = generateUserIDURL this
  /\ generateGraphsURL (setToken this t) = generateGraphsURL this
  /\ (forall graphID,
        generateGraphIDURL (setToken this t) graphID
        = generateGraphIDURL this graphID)
  /\ (forall graphID detailType,
        generateDetailURL (setToken this t) graphID detailType
        = generateDetailURL this graphID detailType)
  /\ generateWebhookURL (setToken this t) = generateWebhookURL this
  /\ (forall webhookHash,
        generateWebhookDetailURL (setToken this t) webhookHash
        = generateWebhookDetailURL this webhookHash)
  /\ (forall op sent,
        map req_url (requests (invoke (setToken this t) op) sent)
        = map req_url (requests (invoke this op) sent)).
Proof.
  repeat split.
  intros op sent. rewrite !invoke_requests, !map_app. f_equal.
  pose proof (wire_url_frame this t op) as H.
  destruct (wire (setToken this t) op), (wire this op); simpl in *; congruence.
Qed.

(** ** C6: the query string *)

Lemma buildQuery_loop (parameters : list (string * option string))
  (params : list string) :
  fold_left
    (fun (params : list string) (kv : string * option string) =>
       match snd kv with
       | Some v => List.app params [fst kv ++ "=" ++ v]
       | None => params
       end)
    parameters params
  = (params ++ query_pairs parameters)%list.
Proof.
  revert params.
  induction parameters as [| [key [v |]] rest IH]; intros params; simpl.
  - now rewrite app_nil_r.
  - rewrite IH, <- app_assoc. reflexivity.
  - apply IH.
Qed.

Lemma buildQuery_eq (url : string) (parameters : list (string * option string)) :
  buildQuery url parameters
  = match query_pairs parameters with
    | [] => url
    | pairs => url ++ "?" ++ join "&" pairs
    end.
Proof.
  unfold buildQuery. rewrite buildQuery_loop. simpl.
  destruct (query_pairs parameters); reflexivity.
Qed.

Lemma getSvg_run (this : Pixela_) (graphID : string)
  (dateStr mode : option string) (sent : list Request) :
  sends (getSvg this graphID dateStr mode) sent
    (plain_request "get" (Client_token (client this))
       (buildQuery (generateGraphIDURL this graphID)
          [("date", dateStr); ("mode", mode)])).
Proof.
  unfold sends, requests, getSvg. now erewrite verbatim_run by transport_run.
Qed.

Ltac query_url :=
  rewrite buildQuery_eq;
  first [rewrite generateGraphIDURL_eq | rewrite generateDetailURL_eq];
  simpl; repeat (rewrite string_app_assoc; simpl);
  rewrite ?string_app_nil_r; reflexivity.

(** C6: [buildQuery] returns the URL as it is when no parameter has a
    value, and otherwise the URL, [?], and the [key=value] pairs of exactly
    the parameters that have one, in the order of the parameter object,
    joined by [&], keys and values being copied unchanged.  For [getSvg]
    this puts [date] before [mode], for [getGraphPixelsDate] [from] before
    [to]; the URL is a function of the user name, the identifiers and the
    parameters only. *)
Theorem buildQuery_spec (url : string)
  (parameters : list (string * option string))
  (username token graphID a b : string) (sent : list Request) :
  buildQuery url parameters
  = match query_pairs parameters with
    | [] => url
    | pairs => url ++ "?" ++ join "&" pairs
    end
  /\ buildQuery url (map (fun kv => (fst kv, None)) parameters) = url
  /\ (forall k1 v1 k2 v2 k3 : string,
        buildQuery url [(k1, Some v1); (k2, None); (k3, Some v2)]
        = url ++ "?" ++ k1 ++ "=" ++ v1 ++ "&" ++ k3 ++ "=" ++ v2)
  /\ issues (getSvg (create username token) graphID None None) sent "get"
       ("https://pixe.la/v1/users/" ++ username ++ "/graphs/" ++ graphID)
  /\ issues (getSvg (create username token) graphID (Some a) None) sent "get"
       ("https://pixe.la/v1/users/" ++ username ++ "/graphs/" ++ graphID
        ++ "?date=" ++ a)
  /\ issues (getSvg (create username token) graphID None (Some b)) sent "get"
       ("https://pixe.la/v1/users/" ++ username ++ "/graphs/" ++ graphID
        ++ "?mode=" ++ b)
  /\ issues (getSvg (create username token) graphID (Some a) (Some b)) sent "get"
       ("https://pixe.la/v1/users/" ++ username ++ "/graphs/" ++ graphID
        ++ "?date=" ++ a ++ "&mode=" ++ b)
  /\ issues (getGraphPixelsDate (create username token) graphID None None)
       sent "get"
       ("https://pixe.la/v1/users/" ++ username ++ "/graphs/" ++ graphID
        ++ "/pixels")
  /\ issues (getGraphPixelsDate (create username token) graphID (Some a) None)
       sent "get"
       ("https://pixe.la/v1/users/" ++ username ++ "/graphs/" ++ graphID
        ++ "/pixels?from=" ++ a)
  /\ issues (getGraphPixelsDate (create username token) graphID None (Some b))
       sent "get"
       ("https://pixe.la/v1/users/" ++ username ++ "/graphs/" ++ graphID
        ++ "/pixels?to=" ++ b)
  /\ issues (getGraphPixelsDate (create username token) graphID (Some a) (Some b))
       sent "get"
       ("https://pixe.la/v1/users/" ++ username ++ "/graphs/" ++ graphID
        ++ "/pixels?from=" ++ a ++ "&to=" ++ b).
Proof.
  split; [apply buildQuery_eq |].
  split.
  { rewrite buildQuery_eq.
    replace (query_pairs (map (fun kv => (fst kv, None)) parameters))
      with (@nil string); [reflexivity |].
    induction parameters as [| kv rest IH]; simpl; [reflexivity | exact IH]. }
  split.
  { intros. rewrite buildQuery_eq. simpl.
    now rewrite !string_app_assoc. }
  repeat split.
  1-4: eexists; split; [apply getSvg_run | split; [reflexivity |]];
       cbv [plain_request req_url]; query_url.
  - by_wire (create username token) (CallGetGraphPixelsDate graphID None None).
    cbv [plain_request req_url]. query_url.
  - by_wire (create username token)
      (CallGetGraphPixelsDate graphID (Some a) None).
    cbv [plain_request req_url]. query_url.
  - by_wire (create username token)
      (CallGetGraphPixelsDate graphID None (Some b)).
    cbv [plain_request req_url]. query_url.
  - by_wire (create username token)
      (CallGetGraphPixelsDate graphID (Some a) (Some b)).
    cbv [plain_request req_url]. query_url.
Qed.

(** ** C7: optional parameters *)

Lemma stringify_defined (v : value number) :
  (exists text, JSON_stringify Number_toString Number_isFinite v = Some text)
  \/ v = VUndefined.
Proof. destruct v; simpl; eauto. Qed.

(** C7 (amended): in the payload of [createGraph], [timezone] and
    [selfSufficient] are absent when the parameter is omitted and occur once
    with the string supplied otherwise; in the payloads of [createPixel] and
    [updatePixel], [optionalData] is absent when the parameter is omitted and
    occurs once otherwise, holding the string [JSON.stringify] makes of the
    value supplied; these payloads are the objects the three methods hand to
    the transport. *)
Theorem optional_parameters_in_payload (this : Pixela_)
  (graphID graphName unit type color dateStr : string)
  (timezone selfSufficient : option string)
  (quantity : number) (optionalData : value number) (sent : list Request) :
  (count_prop "timezone"
     (createGraph_payload graphID graphName unit type color
        timezone selfSufficient)
   = match timezone with Some _ => 1 | None => 0 end
   /\ has_prop "timezone"
        (createGraph_payload graphID graphName unit type color
           timezone selfSufficient)
      = match timezone with Some _ => true | None => false end
   /\ get_prop "timezone"
        (createGraph_payload graphID graphName unit type color
           timezone selfSufficient)
      = match timezone with Some tz => VStr tz | None => VUndefined end
   /\ count_prop "selfSufficient"
        (createGraph_payload graphID graphName unit type color
           timezone selfSufficient)
      = match selfSufficient with Some _ => 1 | None => 0 end
   /\ has_prop "selfSufficient"
        (createGraph_payload graphID graphName unit type color
           timezone selfSufficient)
      = match selfSufficient with Some _ => true | None => false end
   /\ get_prop "selfSufficient"
        (createGraph_payload graphID graphName unit type color
           timezone selfSufficient)
      = match selfSufficient with Some ss => VStr ss | None => VUndefined end
   /\ sends (createGraph this graphID graphName unit type color
               timezone selfSufficient) sent
        (json_request "post" (Client_token (client this))
           (generateGraphsURL this)
           (JSON_stringify Number_toString Number_isFinite
              (VObj (createGraph_payload graphID graphName unit type color
                       timezone selfSufficient)))))
  /\ (count_prop "optionalData"
        (createPixel_payload dateStr quantity optionalData)
      = (if is_undefined optionalData then 0 else 1)
      /\ has_prop "optionalData"
           (createPixel_payload dateStr quantity optionalData)
         = negb (is_undefined optionalData)
      /\ get_prop "optionalData"
           (createPixel_payload dateStr quantity optionalData)
         = match JSON_stringify Number_toString Number_isFinite optionalData with
           | Some text => VStr text
           | None => VUndefined
           end
      /\ sends (createPixel this graphID dateStr quantity optionalData) sent
           (json_request "post" (Client_token (client this))
              (generateGraphIDURL this graphID)
              (JSON_stringify Number_toString Number_isFinite
                 (VObj (createPixel_payload dateStr quantity optionalData)))))
  /\ (count_prop "optionalData" (updatePixel_payload quantity optionalData)
      = (if is_undefined optionalData then 0 else 1)
      /\ has_prop "optionalData" (updatePixel_payload quantity optionalData)
         = negb (is_undefined optionalData)
      /\ get_prop "optionalData" (updatePixel_payload quantity optionalData)
         = match JSON_stringify Number_toString Number_isFinite optionalData with
           | Some text => VStr text
           | None => VUndefined
           end
      /\ sends (updatePixel this graphID dateStr quantity optionalData) sent
           (json_request "put" (Client_token (client this))
              (generateDetailURL this graphID dateStr)
              (JSON_stringify Number_toString Number_isFinite
                 (VObj (updatePixel_payload quantity optionalData)))))
  /\ ((exists text,
         JSON_stringify Number_toString Number_isFinite optionalData = Some text)
      \/ optionalData = VUndefined).
Proof.
  split; [| split; [| split]].
  - repeat split; try (destruct timezone, selfSufficient; reflexivity).
    apply (invoke_run this
             (CallCreateGraph graphID graphName unit type color
                timezone selfSufficient) sent).
  - repeat split; try (destruct optionalData; reflexivity).
    apply (invoke_run this
             (CallCreatePixel graphID dateStr quantity optionalData) sent).
  - repeat split; try (destruct optionalData; reflexivity).
    apply (invoke_run this
             (CallUpdatePixel graphID dateStr quantity optionalData) sent).
  - apply stringify_defined.
Qed.

(** ** C8 and C9: status codes and malformed bodies *)

Lemma sent_one_inj {A : Type} (sent : list A) (x y : A) :
  (sent ++ [x] = sent ++ [y])%list -> x = y.
Proof. intros H. apply app_inv_head in H. now injection H. Qed.

(** C8: each of [get], [post], [put] and [delete] sends its request and
    returns the text of whatever response the network gives to it, with no
    regard to the status code; and a decoding method whose response body
    parses to an object with [isSuccess] false and a [message] returns that
    object, again whatever the status code. *)
Theorem response_returned_whatever_the_status
  (c : Client_) (url : string) (p : value number) (sent : list Request) :
  (sends (Client_get c url) sent (plain_request "get" (Client_token c) url)
   /\ forall response,
        network sent (plain_request "get" (Client_token c) url) = inr response ->
        outcome (Client_get c url) sent = inr (getContentText response))
  /\ (sends (Client_post c url p) sent
        (json_request "post" (Client_token c) url
           (JSON_stringify Number_toString Number_isFinite p))
      /\ forall response,
           network sent
             (json_request "post" (Client_token c) url
                (JSON_stringify Number_toString Number_isFinite p))
           = inr response ->
           outcome (Client_post c url p) sent = inr (getContentText response))
  /\ (sends (Client_put c url p) sent
        (json_request "put" (Client_token c) url
           (JSON_stringify Number_toString Number_isFinite p))
      /\ forall response,
           network sent
             (json_request "put" (Client_token c) url
                (JSON_stringify Number_toString Number_isFinite p))
           = inr response ->
           outcome (Client_put c url p) sent = inr (getContentText response))
  /\ (sends (Client_delete c url) sent
        (plain_request "delete" (Client_token c) url)
      /\ forall response,
           network sent (plain_request "delete" (Client_token c) url)
           = inr response ->
           outcome (Client_delete c url) sent = inr (getContentText response))
  /\ forall (this : Pixela_) (op : Op) (sent' : list Request) (rq' : Request)
       (response' : HTTPResponse) (fields : list (string * value number))
       (explanation : string),
       decodes op = true ->
       sends (invoke this op) sent' rq' ->
       network sent' rq' = inr response' ->
       JSON_parse (getContentText response') = inr (VObj fields) ->
       get_prop "isSuccess" fields = VBool false ->
       get_prop "message" fields = VStr explanation ->
       exists answer,
         outcome (invoke this op) sent' = inr (VObj answer)
         /\ get_prop "isSuccess" answer = VBool false
         /\ get_prop "message" answer = VStr explanation.
Proof.
  unfold sends, requests, outcome.
  rewrite Client_get_run, Client_post_run, Client_put_run, Client_delete_run.
  unfold reply, stringify. simpl fst. simpl snd.
  split; [split; [reflexivity | intros response Hn; now rewrite Hn] |].
  split; [split; [reflexivity | intros response Hn; now rewrite Hn] |].
  split; [split; [reflexivity | intros response Hn; now rewrite Hn] |].
  split; [split; [reflexivity | intros response Hn; now rewrite Hn] |].
  intros this op sent' rq' response' fields explanation Hd Hs' Hn' Hp Hflag Hmsg.
  exists fields. split; [| now split].
  fold (outcome (invoke this op) sent').
  rewrite (invoke_outcome this op sent' rq' Hd Hs').
  unfold decoded, reply. now rewrite Hn'.
Qed.

(** C9: when the body of the response is not JSON, so that [JSON.parse]
    throws, every method that decodes its response throws that same
    exception; it returns no value. *)
Theorem malformed_body_throws (this : Pixela_) (op : Op)
  (sent : list Request) (rq : Request) (response : HTTPResponse)
  (e : Exception) :
  decodes op = true ->
  sends (invoke this op) sent rq ->
  network sent rq = inr response ->
  JSON_parse (getContentText response) = inl e ->
  outcome (invoke this op) sent = inl e
  /\ forall v, outcome (invoke this op) sent <> inr v.
Proof.
  intros Hd Hs Hn Hp.
  assert (H : outcome (invoke this op) sent = inl e).
  { rewrite (invoke_outcome this op sent rq Hd Hs).
    unfold decoded, reply. now rewrite Hn. }
  split; [exact H |]. intros v. rewrite H. discriminate.
Qed.

(** * Further properties of the two classes *)

(** ** Objects: reading after writing *)

Lemma get_prop_set_prop_same (key : string) (v : value number)
  (props : list (string * value number)) :
  get_prop key (set_prop key v props) = v.
Proof.
  induction props as [| [k w] rest IH]; simpl.
  - now rewrite String.eqb_refl.
  - destruct (String.eqb k key) eqn:E; simpl; rewrite E; [reflexivity | exact IH].
Qed.

Lemma get_prop_set_prop_other (key key' : string) (v : value number)
  (props : list (string * value number)) :
  key' <> key ->
  get_prop key (set_prop key' v props) = get_prop key props.
Proof.
  intros Hne. induction props as [| [k w] rest IH]; simpl.
  - apply String.eqb_neq in Hne. now rewrite Hne.
  - destruct (String.eqb k key') eqn:E; simpl.
    + apply String.eqb_eq in E. subst k.
      apply String.eqb_neq in Hne. now rewrite Hne.
    + destruct (String.eqb k key); [reflexivity | exact IH].
Qed.

Lemma string_app_inv_head (a b c : string) : a ++ b = a ++ c -> b = c.
Proof.
  induction a as [| x a IH]; simpl; intros H; [exact H |].
  injection H as H. now apply IH.
Qed.

(** ** The loop of [updateGraph] *)

Lemma updateGraph_forEach_object (props : list (string * value number))
  (elems : list string) (acc : list (string * value number)) :
  exists upd,
    updateGraph_forEach (VObj props) elems acc = inr upd
    /\ forall key,
         get_prop key upd
         = if existsb (String.eqb key) elems
              && negb (is_undefined (get_prop key props))
           then get_prop key props
           else get_prop key acc.
Proof.
  revert acc. induction elems as [| elem rest IH]; intros acc; simpl.
  - exists acc. split; [reflexivity | intros key; reflexivity].
  - destruct (IH (if negb (is_undefined (get_prop elem props))
                  then set_prop elem (get_prop elem props) acc
                  else acc)) as [upd [Hrun Hget]].
    exists upd. split; [exact Hrun |].
    intros key. rewrite Hget.
    destruct (String.eqb key elem) eqn:E; simpl.
    + apply String.eqb_eq in E. subst elem.
      destruct (negb (is_undefined (get_prop key props))) eqn:D.
      * rewrite andb_true_r, get_prop_set_prop_same.
        now destruct (existsb (String.eqb key) rest).
      * now rewrite !andb_false_r.
    + destruct (existsb (String.eqb key) rest
                && negb (is_undefined (get_prop key props))); [reflexivity |].
      destruct (negb (is_undefined (get_prop elem props))); [| reflexivity].
      apply get_prop_set_prop_other. intros ->.
      now rewrite String.eqb_refl in E.
Qed.

Lemma updateGraph_forEach_runs (p : value number) :
  p <> VUndefined -> p <> VNull ->
  exists upd, updateGraph_forEach p elements [] = inr upd.
Proof.
  intros Hu Hn. destruct p; try (eexists; reflexivity); congruence.
Qed.

Lemma set_prop_fresh (key : string) (v : value number)
  (props : list (string * value number)) :
  has_prop key props = false ->
  set_prop key v props = (props ++ [(key, v)])%list.
Proof.
  unfold has_prop. induction props as [| [k w] rest IH]; simpl; intros H.
  - reflexivity.
  - apply orb_false_iff in H as [Hk Hrest]. rewrite Hk. f_equal. now apply IH.
Qed.

Lemma has_prop_app (key : string) (a b : list (string * value number)) :
  has_prop key (a ++ b) = has_prop key a || has_prop key b.
Proof. unfold has_prop. apply existsb_app. Qed.

(** The loop, for names that are distinct and not yet in the copy: each
    name the payload defines is added last, in turn. *)
Lemma updateGraph_forEach_exact (props : list (string * value number))
  (elems : list string) (acc : list (string * value number)) :
  NoDup elems ->
  (forall key, In key elems -> has_prop key acc = false) ->
  updateGraph_forEach (VObj props) elems acc
  = inr (acc ++ map (fun key => (key, get_prop key props))
                  (filter (fun key => negb (is_undefined (get_prop key props)))
                     elems))%list.
Proof.
  revert acc. induction elems as [| elem rest IH]; intros acc Hnd Hfresh; simpl.
  - now rewrite app_nil_r.
  - inversion Hnd as [| x l Hnotin Hnd']; subst.
    destruct (negb (is_undefined (get_prop elem props))) eqn:D.
    + rewrite set_prop_fresh by (apply Hfresh; now left).
      rewrite IH; [now rewrite <- app_assoc | exact Hnd' |].
      intros key Hin. rewrite has_prop_app, (Hfresh key) by (now right).
      unfold has_prop. simpl. rewrite orb_false_r.
      apply String.eqb_neq. intros ->. now apply Hnotin.
    + apply IH; [exact Hnd' |]. intros key Hin. apply Hfresh. now right.
Qed.

Lemma elements_NoDup : NoDup elements.
Proof.
  unfold elements.
  repeat (constructor; [simpl; intuition discriminate |]). constructor.
Qed.

(** X8: on an object, the loop of [updateGraph] ends with a copy that is
    the list of the allow-listed names the payload defines, in the order of
    the allow-list, each once and with the payload's value, and nothing
    else: a name outside the allow-list, and a name whose value is
    [undefined], is not a property of the copy. *)
Theorem updateGraph_loop_filters (props : list (string * value number)) :
  updateGraph_forEach (VObj props) elements []
  = inr (map (fun key => (key, get_prop key props))
           (filter (fun key => negb (is_undefined (get_prop key props)))
              elements))
  /\ forall key,
       has_prop key
         (map (fun key => (key, get_prop key props))
            (filter (fun key => negb (is_undefined (get_prop key props)))
               elements))
       = existsb (String.eqb key) elements
         && negb (is_undefined (get_prop key props)).
Proof.
  split.
  - apply (updateGraph_forEach_exact props elements []);
      [apply elements_NoDup | reflexivity].
  - intros key. unfold has_prop.
    induction elements as [| elem rest IH]; [reflexivity |].
    simpl. destruct (negb (is_undefined (get_prop elem props))) eqn:D; simpl.
    + rewrite IH. rewrite String.eqb_sym.
      destruct (String.eqb key elem) eqn:E; simpl; [| reflexivity].
      apply String.eqb_eq in E. subst elem. now rewrite D.
    + rewrite IH.
      destruct (String.eqb key elem) eqn:E; simpl; [| reflexivity].
      apply String.eqb_eq in E. subst elem. rewrite D.
      now rewrite !andb_false_r.
Qed.

(** ** Every call, as a whole *)

Lemma wire_muted (this : Pixela_) (op : Op) (rq : Request) :
  wire this op = Some rq -> muteHttpExceptions (req_options rq) = true.
Proof.
  destruct op; cbv [wire]; intros H; try discriminate;
    try (injection H as <-; reflexivity).
  match type of H with
  | context [updateGraph_forEach ?p elements []] =>
      destruct (updateGraph_forEach p elements [])
  end; [discriminate | injection H as <-; reflexivity].
Qed.

Lemma sends_wire (this : Pixela_) (op : Op) (sent : list Request)
  (rq : Request) :
  sends (invoke this op) sent rq -> wire this op = Some rq.
Proof.
  unfold sends. rewrite invoke_requests. intros H.
  apply app_inv_head in H. destruct (wire this op); [| discriminate].
  now injection H as ->.
Qed.

Lemma getSvg_eq (this : Pixela_) (graphID : string)
  (dateStr mode : option string) (sent : list Request) :
  getSvg this graphID dateStr mode sent
  = (reply sent (plain_request "get" (Client_token (client this))
                   (buildQuery (generateGraphIDURL this graphID)
                      [("date", dateStr); ("mode", mode)])),
     (sent ++ [plain_request "get" (Client_token (client this))
                 (buildQuery (generateGraphIDURL this graphID)
                    [("date", dateStr); ("mode", mode)])])%list).
Proof. unfold getSvg. apply verbatim_run. transport_run. Qed.

(** What any call other than [setToken] ends with, once its request went
    out. *)
Lemma invoke_outcome_any (this : Pixela_) (op : Op) (sent : list Request)
  (rq : Request) :
  sends (invoke this op) sent rq ->
  outcome (invoke this op) sent
  = match reply sent rq with
    | inl e => inl e
    | inr text => if decodes op then JSON_parse text else inr (VStr text)
    end.
Proof.
  intros Hs. destruct (decodes op) eqn:Hd.
  - now apply invoke_outcome.
  - pose proof (sends_wire _ _ _ _ Hs) as Hw.
    destruct op; try discriminate Hd; try discriminate Hw.
    cbv [wire] in Hw. injection Hw as <-.
    unfold outcome. simpl invoke. unfold bind at 1. rewrite getSvg_eq.
    unfold ret. now destruct (reply sent _).
Qed.

(** X1: no call sends more than one request, and a request that is sent
    mutes the HTTP exceptions and carries the token of the transport;
    [setToken] sends none. *)
Theorem every_call_sends_at_most_one_muted_request (this : Pixela_) (op : Op)
  (sent : list Request) :
  (exists news,
     requests (invoke this op) sent = (sent ++ news)%list
     /\ length news <= 1
     /\ Forall (fun rq =>
                  muteHttpExceptions (req_options rq) = true
                  /\ auth_header rq = Some (Client_token (client this)))
          news)
  /\ (is_setToken op = true -> requests (invoke this op) sent = sent).
Proof.
  split.
  - exists (match wire this op with Some rq => [rq] | None => [] end).
    split; [apply invoke_requests |].
    destruct (wire this op) as [rq |] eqn:Hw; simpl.
    + split; [lia |]. constructor; [| constructor].
      split; [exact (wire_muted _ _ _ Hw) | exact (wire_auth _ _ _ Hw)].
    + split; [lia | constructor].
  - destruct op; try discriminate. reflexivity.
Qed.

(** X2: when the exchange itself fails, the call throws the failure of the
    fetch primitive as it is; this holds for [getSvg] as for the decoding
    methods. *)
Theorem network_failure_propagates (this : Pixela_) (op : Op)
  (sent : list Request) (rq : Request) (e : Exception) :
  sends (invoke this op) sent rq ->
  network sent rq = inl e ->
  outcome (invoke this op) sent = inl e.
Proof.
  intros Hs Hn. rewrite (invoke_outcome_any _ _ _ _ Hs).
  unfold reply. now rewrite Hn.
Qed.

(** X3: [getSvg] returns the text of the response as it is, whatever the
    status code and whether or not the text is JSON. *)
Theorem getSvg_returns_text_verbatim (this : Pixela_) (graphID : string)
  (dateStr mode : option string) (sent : list Request) (rq : Request)
  (response : HTTPResponse) :
  sends (getSvg this graphID dateStr mode) sent rq ->
  network sent rq = inr response ->
  outcome (getSvg this graphID dateStr mode) sent
  = inr (getContentText response).
Proof.
  unfold sends, requests, outcome. rewrite getSvg_eq. simpl.
  intros Hs Hn. apply sent_one_inj in Hs. subst rq.
  unfold reply. now rewrite Hn.
Qed.

(** X7: [updateGraph] on [undefined] or [null] throws while it reads the
    first allow-listed property, before any request is sent. *)
Theorem updateGraph_rejects_missing_payload (this : Pixela_)
  (graphID : string) (p : value number) (sent : list Request) :
  p = VUndefined \/ p = VNull ->
  requests (updateGraph this graphID p) sent = sent
  /\ outcome (updateGraph this graphID p) sent = inl (TypeError "graphName").
Proof.
  unfold requests, outcome. rewrite updateGraph_run.
  intros [-> | ->]; split; reflexivity.
Qed.

(** ** Verb, URL and body of the user, graph and webhook methods *)

(** Proves [sends (m this args) sent rq] from the entry of [wire]. *)
Ltac sends_by_wire this op :=
  match goal with
  | |- sends _ ?sent _ =>
      let H := fresh "H" in
      pose proof (invoke_run this op sent) as H;
      cbv [wire] in H; destruct H as [H _];
      unfold sends; etransitivity; [exact H |];
      rewrite ?generateUserIDURL_eq, ?generateGraphIDURL_eq,
        ?generateDetailURL_eq, ?generateWebhookDetailURL_eq;
      reflexivity
  end.

(** X4: on a client made by [create], [createUser] posts the user name, the
    token and the two answers to [/v1/users]; [updateUser] puts the new
    token, in the body only, to [/v1/users/{username}], still authenticated
    by the stored token; [deleteUser] sends a DELETE without body to the
    same URL. *)
Theorem user_methods_requests (username token
  agreeTermsOfService notMinor newToken : string) (sent : list Request) :
  sends (createUser (create username token) agreeTermsOfService notMinor) sent
    (json_request "post" token "https://pixe.la/v1/users"
       (JSON_stringify Number_toString Number_isFinite
          (VObj [("username", VStr username);
                 ("token", VStr token);
                 ("agreeTermsOfService", VStr agreeTermsOfService);
                 ("notMinor", VStr notMinor)])))
  /\ sends (updateUser (create username token) newToken) sent
       (json_request "put" token ("https://pixe.la/v1/users/" ++ username)
          (JSON_stringify Number_toString Number_isFinite
             (VObj [("newToken", VStr newToken)])))
  /\ sends (deleteUser (create username token)) sent
       (plain_request "delete" token ("https://pixe.la/v1/users/" ++ username)).
Proof.
  split; [| split].
  - sends_by_wire (create username token)
      (CallCreateUser agreeTermsOfService notMinor).
  - sends_by_wire (create username token) (CallUpdateUser newToken).
  - sends_by_wire (create username token) CallDeleteUser.
Qed.

(** X5: on a client made by [create], [createGraph] posts its payload to
    [/v1/users/{username}/graphs], [getGraph] gets that URL, [updateGraph]
    puts the object it was given to [/v1/users/{username}/graphs/{graphID}]
    and [deleteGraph] sends a DELETE without body there. *)
Theorem graph_methods_requests (username token
  graphID graphName unit type color : string)
  (timezone selfSufficient : option string)
  (props : list (string * value number)) (sent : list Request) :
  sends (createGraph (create username token) graphID graphName unit type color
           timezone selfSufficient) sent
    (json_request "post" token
       ("https://pixe.la/v1/users/" ++ username ++ "/graphs")
       (JSON_stringify Number_toString Number_isFinite
          (VObj (createGraph_payload graphID graphName unit type color
                   timezone selfSufficient))))
  /\ sends (getGraph (create username token)) sent
       (plain_request "get" token
          ("https://pixe.la/v1/users/" ++ username ++ "/graphs"))
  /\ sends (updateGraph (create username token) graphID (VObj props)) sent
       (json_request "put" token
          ("https://pixe.la/v1/users/" ++ username ++ "/graphs/" ++ graphID)
          (JSON_stringify Number_toString Number_isFinite (VObj props)))
  /\ sends (deleteGraph (create username token) graphID) sent
       (plain_request "delete" token
          ("https://pixe.la/v1/users/" ++ username ++ "/graphs/" ++ graphID)).
Proof.
  split; [| split; [| split]].
  - sends_by_wire (create username token)
      (CallCreateGraph graphID graphName unit type color
         timezone selfSufficient).
  - sends_by_wire (create username token) CallGetGraph.
  - unfold sends, requests. rewrite updateGraph_run.
    destruct (updateGraph_forEach_object props elements []) as [upd [-> _]].
    simpl snd. now rewrite generateGraphIDURL_eq.
  - sends_by_wire (create username token) (CallDeleteGraph graphID).
Qed.

(** X6: on a client made by [create], [createWebhook] posts the graph and
    the type to [/v1/users/{username}/webhooks], [getWebhook] gets that
    URL, and [deleteWebhook] sends a DELETE without body to
    [/v1/users/{username}/webhooks/{webhookHash}]. *)
Theorem webhook_methods_requests (username token
  graphID webhookType webhookHash : string) (sent : list Request) :
  sends (createWebhook (create username token) graphID webhookType) sent
    (json_request "post" token
       ("https://pixe.la/v1/users/" ++ username ++ "/webhooks")
       (JSON_stringify Number_toString Number_isFinite
          (VObj [("graphID", VStr graphID); ("type", VStr webhookType)])))
  /\ sends (getWebhook (create username token)) sent
       (plain_request "get" token
          ("https://pixe.la/v1/users/" ++ username ++ "/webhooks"))
  /\ sends (deleteWebhook (create username token) webhookHash) sent
       (plain_request "delete" token
          ("https://pixe.la/v1/users/" ++ username ++ "/webhooks/"
           ++ webhookHash)).
Proof.
  split; [| split].
  - sends_by_wire (create username token)
      (CallCreateWebhook graphID webhookType).
  - sends_by_wire (create username token) CallGetWebhook.
  - sends_by_wire (create username token)
      (CallDeleteWebhook webhookHash).
Qed.

(** X14: [incPixel] and [decPixel] send a PUT that has no body, although it
    declares the JSON content type. *)
Theorem incPixel_decPixel_send_no_body (this : Pixela_) (graphID : string)
  (sent : list Request) :
  (exists rq, sends (incPixel this graphID) sent rq
              /\ method (req_options rq) = "put"
              /\ body rq = None
              /\ content_type rq = Some "application/json")
  /\ (exists rq, sends (decPixel this graphID) sent rq
                 /\ method (req_options rq) = "put"
                 /\ body rq = None
                 /\ content_type rq = Some "application/json").
Proof.
  split.
  - eexists.
    split; [apply (invoke_run this (CallIncPixel graphID) sent) | repeat split].
  - eexists.
    split; [apply (invoke_run this (CallDecPixel graphID) sent) | repeat split].
Qed.

(** ** Identifiers are copied into the URL as they are *)

(** X9: a path segment is not escaped, so a [/] inside an identifier moves
    the boundary between segments: the detail URL of [graphID] and
    [detailType] is the graph URL of [graphID/detailType]; [deletePixel]
    then sends the request [deleteGraph] sends for that identifier, and
    [getPixel] with the date [pixels] sends the request of the pixel
    history. *)
Theorem path_segments_are_not_escaped (this : Pixela_)
  (graphID detailType extra : string) (sent : list Request) :
  generateDetailURL this graphID detailType
  = generateGraphIDURL this (graphID ++ "/" ++ detailType)
  /\ generateDetailURL this (graphID ++ "/" ++ extra) detailType
     = generateDetailURL this graphID (extra ++ "/" ++ detailType)
  /\ requests (deletePixel this graphID detailType) sent
     = requests (deleteGraph this (graphID ++ "/" ++ detailType)) sent
  /\ requests (getPixel this graphID "pixels") sent
     = requests (getGraphPixelsDate this graphID None None) sent.
Proof.
  assert (H1 : generateDetailURL this graphID detailType
               = generateGraphIDURL this (graphID ++ "/" ++ detailType))
    by (now rewrite generateDetailURL_eq, generateGraphIDURL_eq).
  split; [exact H1 | split; [| split]].
  - rewrite !generateDetailURL_eq. now rewrite string_app_assoc.
  - pose proof (invoke_requests this (CallDeletePixel graphID detailType)
                  sent) as Ha.
    pose proof (invoke_requests this
                  (CallDeleteGraph (graphID ++ "/" ++ detailType))
                  sent) as Hb.
    cbv [wire invoke] in Ha, Hb.
    rewrite Ha, Hb. now rewrite H1.
  - pose proof (invoke_requests this (CallGetPixel graphID "pixels")
                  sent) as Ha.
    pose proof (invoke_requests this
                  (CallGetGraphPixelsDate graphID None None) sent)
      as Hb.
    cbv [wire invoke] in Ha, Hb.
    rewrite Ha, Hb. now rewrite buildQuery_eq.
Qed.

(** X10: a query value is not escaped, so a value that contains [&] reads
    as further parameters: [getSvg] with the date [d&mode=m] and no mode
    sends the request it sends for the date [d] and the mode [m]. *)
Theorem query_values_are_not_escaped (this : Pixela_)
  (url k1 v1 k2 v2 graphID d m : string) (sent : list Request) :
  buildQuery url [(k1, Some (v1 ++ "&" ++ k2 ++ "=" ++ v2))]
  = buildQuery url [(k1, Some v1); (k2, Some v2)]
  /\ requests (getSvg this graphID (Some (d ++ "&mode=" ++ m)) None) sent
     = requests (getSvg this graphID (Some d) (Some m)) sent.
Proof.
  assert (H : forall u a b c e,
             buildQuery u [(a, Some (b ++ "&" ++ c ++ "=" ++ e))]
             = buildQuery u [(a, Some b); (c, Some e)]).
  { intros. rewrite !buildQuery_eq. simpl.
    now rewrite !string_app_assoc. }
  split; [apply H |].
  unfold requests. rewrite !getSvg_eq. reflexivity.
Qed.

Lemma generateGraphIDURL_inj (this : Pixela_) (a b : string) :
  generateGraphIDURL this a = generateGraphIDURL this b -> a = b.
Proof.
  rewrite !generateGraphIDURL_eq. intros H.
  now repeat apply string_app_inv_head in H.
Qed.

(** X11: two different identifiers never give the same URL: not as graph,
    not as webhook, not as detail of one graph, and not as user name of two
    clients made by [create]. *)
Theorem different_identifiers_different_urls (this : Pixela_)
  (a b graphID token token' : string) :
  a <> b ->
  generateGraphIDURL this a <> generateGraphIDURL this b
  /\ generateWebhookDetailURL this a <> generateWebhookDetailURL this b
  /\ generateDetailURL this graphID a <> generateDetailURL this graphID b
  /\ generateUserIDURL (create a token) <> generateUserIDURL (create b token').
Proof.
  intros Hne. repeat split; intros H; apply Hne.
  - now apply (generateGraphIDURL_inj this).
  - rewrite !generateWebhookDetailURL_eq in H.
    now repeat apply string_app_inv_head in H.
  - rewrite !generateDetailURL_eq in H.
    now repeat apply string_app_inv_head in H.
  - rewrite !generateUserIDURL_eq in H.
    exact (string_app_inv_head "https://pixe.la/v1/users/" a b H).
Qed.

(** ** The object over a run of calls *)

Lemma run_object (username token0 : string) (ops : list Op)
  (sent : list Request) :
  fst (run ops (create username token0, sent))
  = create username (last_token ops token0).
Proof.
  revert token0 sent. induction ops as [| op ops IH]; intros token0 sent.
  - reflexivity.
  - unfold run, last_token. simpl fold_left.
    destruct op;
      try (unfold step at 2; simpl after; apply IH).
Qed.

(** X12: after any sequence of calls a client made by [create] is the
    client [create] makes from the same user name and the token of the last
    [setToken] (the first token when there was none); what was called
    before a [setToken] leaves no trace in the object. *)
Theorem run_is_create_with_last_token (username token0 token' : string)
  (ops earlier later : list Op) (sent : list Request) :
  fst (run ops (create username token0, sent))
  = create username (last_token ops token0)
  /\ fst (run (earlier ++ CallSetToken token' :: later)
            (create username token0, sent))
     = fst (run later (create username token', sent)).
Proof.
  split; [apply run_object |].
  rewrite !run_object. f_equal.
  unfold last_token. now rewrite fold_left_app.
Qed.

(** ** The keys of the payloads *)

(** X13: the payload of [createGraph] has the five required keys and then
    [timezone] and [selfSufficient] when supplied, each key once and no
    other; the payload of [createPixel] has [date], [quantity] and, when
    supplied, [optionalData]; the payload of [updatePixel] has [quantity]
    and, when supplied, [optionalData], and no [date]; in both the quantity
    is the string [toString] gives, not a number. *)
Theorem payload_keys (graphID graphName unit type color dateStr : string)
  (timezone selfSufficient : option string)
  (quantity : number) (optionalData : value number) :
  map fst (createGraph_payload graphID graphName unit type color
             timezone selfSufficient)
  = (["id"; "name"; "unit"; "type"; "color"]
     ++ match timezone with Some _ => ["timezone"] | None => [] end
     ++ match selfSufficient with Some _ => ["selfSufficient"] | None => [] end)%list
  /\ map fst (createPixel_payload dateStr quantity optionalData)
     = (["date"; "quantity"]
        ++ if is_undefined optionalData then [] else ["optionalData"])%list
  /\ map fst (updatePixel_payload quantity optionalData)
     = (["quantity"]
        ++ if is_undefined optionalData then [] else ["optionalData"])%list
  /\ get_prop "quantity" (createPixel_payload dateStr quantity optionalData)
     = VStr (Number_toString quantity)
  /\ get_prop "quantity" (updatePixel_payload quantity optionalData)
     = VStr (Number_toString quantity).
Proof.
  repeat split;
    try (destruct timezone, selfSufficient; reflexivity);
    destruct optionalData; reflexivity.
Qed.

(** ** Where the requests go *)

Lemma buildQuery_prefix (head url : string)
  (parameters : list (string * option string)) :
  prefix head url = true -> prefix head (buildQuery url parameters) = true.
Proof.
  intros H. rewrite buildQuery_eq.
  destruct (query_pairs parameters) as [| pair pairs]; [exact H |].
  generalize ("?" ++ join "&" (pair :: pairs)). intros tail.
  revert url H. induction head as [| c head IH]; intros url H;
    [now destruct (url ++ tail) |].
  destruct url as [| x url]; [discriminate H |].
  simpl in H |- *. destruct (Ascii.ascii_dec c x); [now apply IH | discriminate H].
Qed.

(** X15: whatever calls came before, a request of a client made by [create]
    goes to a URL that starts with [https://pixe.la/v1/users] and carries
    the token of the last [setToken] (the first token when there was
    none). *)
Theorem every_request_goes_to_pixela (username token0 : string)
  (ops : list Op) (op : Op) (sent0 sent : list Request) (rq : Request) :
  sends (invoke (fst (run ops (create username token0, sent0))) op) sent rq ->
  prefix "https://pixe.la/v1/users" (req_url rq) = true
  /\ auth_header rq = Some (last_token ops token0).
Proof.
  rewrite run_object. intros Hs.
  apply sends_wire in Hs. split; [| exact (wire_auth _ _ _ Hs)].
  destruct op; cbv [wire] in Hs; try discriminate Hs;
    try (injection Hs as <-; cbv [json_request plain_request req_url];
         first [ reflexivity | apply buildQuery_prefix; reflexivity ]).
  match type of Hs with
  | context [updateGraph_forEach ?p elements []] =>
      destruct (updateGraph_forEach p elements [])
  end; [discriminate Hs | injection Hs as <-; reflexivity].
Qed.

End Model.

(** * The properties on the sample runtime *)

(** C2, as stated, fails for [createPixel]: for user [a], graph [g] and date
    [20200101] the POST does not go to the URL that ends with the date. *)
Lemma createPixel_url_has_no_date :
  ~ issues
      (createPixel (replying not_found) sample_toString sample_isFinite
         sample_parse (create "a" "tok") "g" "20200101" 5%Z VUndefined)
      [] "post" "https://pixe.la/v1/users/a/graphs/g/20200101".
Proof.
  intros [rq [Hs [_ Hu]]]. vm_compute in Hs.
  injection Hs as Hs. subst rq. discriminate Hu.
Qed.

(** C3, as stated, fails for [delete]: its request has no [Content-Type]
    header. *)
Lemma delete_sends_no_content_type :
  ~ exists rq,
      sends (Client_delete (replying not_found) (new_Client_ "tok")
               "https://pixe.la/v1/users/a") [] rq
      /\ content_type rq = Some "application/json".
Proof.
  intros [rq [Hs Hc]]. vm_compute in Hs.
  injection Hs as Hs. subst rq. discriminate Hc.
Qed.

(** C7, as stated, fails for [optionalData]: supplying the object
    [{a: "b"}] to [createPixel] does not put that object under
    [optionalData]. *)
Lemma optionalData_is_not_the_value_supplied :
  ~ get_prop "optionalData"
      (createPixel_payload sample_toString sample_isFinite "20200101" 5%Z
         (VObj [("a", VStr "b")]))
    = VObj [("a", VStr "b")].
Proof. vm_compute. discriminate. Qed.

(** C4 on a run: a user is created with the token [old], the token is
    replaced by [new], and two more calls follow. *)
Lemma setToken_rotates_token_witness :
  existsb is_setToken [@CallGetGraph Z; CallIncPixel "g"] = false
  /\ exists news,
       snd (run (replying not_found) sample_toString sample_isFinite
              sample_parse [CallGetGraph; CallIncPixel "g"]
              (run (replying not_found) sample_toString sample_isFinite
                 sample_parse ([CallCreateUser "yes" "yes"]
                               ++ [CallSetToken "new"])
                 (create "a" "old", [])))
       = (snd (run (replying not_found) sample_toString sample_isFinite
                 sample_parse [CallCreateUser "yes" "yes"]
                 (create "a" "old", [])) ++ news)%list
       /\ Forall
            (fun rq =>
               auth_header rq = Some "new"
               /\ (token (fst (run (replying not_found) sample_toString
                                 sample_isFinite sample_parse
                                 [CallCreateUser "yes" "yes"]
                                 (create "a" "old", [])))
                   <> "new" ->
                   auth_header rq
                   <> Some (token (fst (run (replying not_found)
                                          sample_toString sample_isFinite
                                          sample_parse
                                          [CallCreateUser "yes" "yes"]
                                          (create "a" "old", []))))))
            news.
Proof.
  split; [reflexivity |].
  apply (setToken_rotates_token (replying not_found) sample_toString
           sample_isFinite sample_parse "a" "old" "new"
           [CallCreateUser "yes" "yes"] [CallGetGraph; CallIncPixel "g"] []).
  reflexivity.
Defined.

(** C8 on a 404 answer whose body explains the refusal: the four verbs
    return its text, and [deleteUser] returns the decoded refusal. *)
Lemma response_returned_whatever_the_status_witness :
  indicates_failure (getResponseCode not_found) = true
  /\ outcome (Client_get (replying not_found) (new_Client_ "tok")
                "https://pixe.la/v1/users/a/graphs") []
     = inr (getContentText not_found)
  /\ outcome (Client_post (replying not_found) sample_toString sample_isFinite
                (new_Client_ "tok") "https://pixe.la/v1/users/a/graphs"
                (VObj [("id", VStr "g")])) []
     = inr (getContentText not_found)
  /\ outcome (Client_put (replying not_found) sample_toString sample_isFinite
                (new_Client_ "tok") "https://pixe.la/v1/users/a/graphs"
                (VObj [("id", VStr "g")])) []
     = inr (getContentText not_found)
  /\ outcome (Client_delete (replying not_found) (new_Client_ "tok")
                "https://pixe.la/v1/users/a/graphs") []
     = inr (getContentText not_found)
  /\ exists answer,
       outcome (invoke (replying not_found) sample_toString sample_isFinite
                  sample_parse (create "a" "tok") CallDeleteUser) []
       = inr (VObj answer)
       /\ get_prop "isSuccess" answer = VBool false
       /\ get_prop "message" answer
          = VStr "User does not exist or the token is wrong.".
Proof.
  destruct (response_returned_whatever_the_status (replying not_found)
              sample_toString sample_isFinite sample_parse
              (new_Client_ "tok") "https://pixe.la/v1/users/a/graphs"
              (VObj [("id", VStr "g")]) [])
    as [[_ Hget] [[_ Hpost] [[_ Hput] [[_ Hdelete] Hdecode]]]].
  split; [reflexivity |].
  split; [apply Hget; reflexivity |].
  split; [apply Hpost; reflexivity |].
  split; [apply Hput; reflexivity |].
  split; [apply Hdelete; reflexivity |].
  apply (Hdecode (create "a" "tok") CallDeleteUser []
           (plain_request "delete" "tok" "https://pixe.la/v1/users/a")
           not_found
           [("message", VStr "User does not exist or the token is wrong.");
            ("isSuccess", VBool false)]
           "User does not exist or the token is wrong.");
    reflexivity.
Defined.

(** C9 on a 502 answer whose body is an HTML page. *)
Lemma malformed_body_throws_witness :
  decodes (@CallGetPixel Z "g" "20200101") = true
  /\ sends (invoke (replying bad_gateway) sample_toString sample_isFinite
              sample_parse (create "a" "tok") (CallGetPixel "g" "20200101"))
       []
       (plain_request "get" "tok"
          "https://pixe.la/v1/users/a/graphs/g/20200101")
  /\ sample_parse (getContentText bad_gateway)
     = inl (SyntaxError "<html>Bad Gateway</html>")
  /\ outcome (invoke (replying bad_gateway) sample_toString sample_isFinite
                sample_parse (create "a" "tok") (CallGetPixel "g" "20200101"))
       []
     = inl (SyntaxError "<html>Bad Gateway</html>")
  /\ forall v,
       outcome (invoke (replying bad_gateway) sample_toString sample_isFinite
                  sample_parse (create "a" "tok")
                  (CallGetPixel "g" "20200101")) []
       <> inr v.
Proof.
  split; [reflexivity | split; [reflexivity | split; [reflexivity |]]].
  apply (malformed_body_throws (replying bad_gateway) sample_toString
           sample_isFinite sample_parse (create "a" "tok")
           (CallGetPixel "g" "20200101") []
           (plain_request "get" "tok"
              "https://pixe.la/v1/users/a/graphs/g/20200101")
           bad_gateway (SyntaxError "<html>Bad Gateway</html>"));
    reflexivity.
Defined.

(** X2 on [getGraph] over a network that is down. *)
Lemma network_failure_propagates_witness :
  sends (invoke unreachable sample_toString sample_isFinite sample_parse
           (create "a" "tok") CallGetGraph) []
    (plain_request "get" "tok" "https://pixe.la/v1/users/a/graphs")
  /\ outcome (invoke unreachable sample_toString sample_isFinite sample_parse
                (create "a" "tok") CallGetGraph) []
     = inl (FetchException "DNS error").
Proof.
  split; [reflexivity |].
  apply (network_failure_propagates unreachable sample_toString
           sample_isFinite sample_parse (create "a" "tok") CallGetGraph []
           (plain_request "get" "tok" "https://pixe.la/v1/users/a/graphs")
           (FetchException "DNS error"));
    reflexivity.
Defined.

(** X3 on an SVG answer. *)
Lemma getSvg_returns_text_verbatim_witness :
  sends (getSvg (replying svg_page) (create "a" "tok") "g" None (Some "short"))
    [] (plain_request "get" "tok" "https://pixe.la/v1/users/a/graphs/g?mode=short")
  /\ outcome (getSvg (replying svg_page) (create "a" "tok") "g" None
                (Some "short")) []
     = inr "<svg></svg>".
Proof.
  split; [reflexivity |].
  apply (getSvg_returns_text_verbatim (replying svg_page) (create "a" "tok")
           "g" None (Some "short") []
           (plain_request "get" "tok"
              "https://pixe.la/v1/users/a/graphs/g?mode=short")
           svg_page);
    reflexivity.
Defined.

(** X7 on [null]. *)
Lemma updateGraph_rejects_missing_payload_witness :
  requests (updateGraph (replying not_found) sample_toString sample_isFinite
              sample_parse (create "a" "tok") "g" VNull) [] = []
  /\ outcome (updateGraph (replying not_found) sample_toString sample_isFinite
                sample_parse (create "a" "tok") "g" VNull) []
     = inl (TypeError "graphName").
Proof.
  apply (updateGraph_rejects_missing_payload (replying not_found)
           sample_toString sample_isFinite sample_parse (create "a" "tok")
           "g" VNull []).
  right. reflexivity.
Defined.

(** X11 on the graphs [g1] and [g2]. *)
Lemma different_identifiers_different_urls_witness :
  "g1" <> "g2"
  /\ generateGraphIDURL (create "a" "tok") "g1"
     <> generateGraphIDURL (create "a" "tok") "g2".
Proof.
  split; [discriminate |].
  apply (different_identifiers_different_urls (create "a" "tok")
           "g1" "g2" "g" "tok" "tok").
  discriminate.
Defined.

(** X15 on a deletion made after two rotations of the token. *)
Lemma every_request_goes_to_pixela_witness :
  sends (invoke (replying not_found) sample_toString sample_isFinite
           sample_parse
           (fst (run (replying not_found) sample_toString sample_isFinite
                   sample_parse
                   [CallSetToken "t1"; CallGetGraph; CallSetToken "t2"]
                   (create "a" "t0", [])))
           (CallDeletePixel "g" "20200101")) []
    (plain_request "delete" "t2" "https://pixe.la/v1/users/a/graphs/g/20200101")
  /\ prefix "https://pixe.la/v1/users"
       "https://pixe.la/v1/users/a/graphs/g/20200101" = true
  /\ auth_header
       (plain_request "delete" "t2"
          "https://pixe.la/v1/users/a/graphs/g/20200101")
     = Some "t2".
Proof.
  split; [reflexivity |].
  apply (every_request_goes_to_pixela (replying not_found) sample_toString
           sample_isFinite sample_parse "a" "t0"
           [CallSetToken "t1"; CallGetGraph; CallSetToken "t2"]
           (CallDeletePixel "g" "20200101") [] []
           (plain_request "delete" "t2"
              "https://pixe.la/v1/users/a/graphs/g/20200101")).
  reflexivity.
Defined.
